(** * ERPNext MCP server: journal-entry validation, creation and bank-transaction search

    A shallow embedding of the accounting layer of [src/index.ts]:
    the methods [validateJournalEntry], [createJournalEntry],
    [submitJournalEntry], [searchBankTransactions] of [ERPNextClient] and the
    [create_journal_entry] tool handler, together with the types of
    [src/types.ts].

    The validator is embedded twice: as a function on values, and
    statement by statement as a program on a heap of objects, which is
    proved to build exactly the validation the function computes.

    JavaScript numbers are IEEE-754 binary64 values; they are modelled with
    the executable specification [SpecFloat] of the Standard Library, so that
    rounding to cents, NaN and signed zeros behave as they do at run time. *)

From Stdlib Require Import ZArith List String Ascii Bool Lia.
From Stdlib Require Import SpecFloat DecimalString.
Import ListNotations.

Open Scope string_scope.
Open Scope Z_scope.
Open Scope list_scope.

(* ================================================================== *)
(** ** JavaScript numbers *)
(* ================================================================== *)

Module Number.

(** binary64: 53 bits of mantissa, infinities at exponent 1024. *)
Definition prec : Z := 53.
Definition emax : Z := 1024.

Definition number : Type := spec_float.

(** An integer literal (exact below 2^53, correctly rounded above). *)
Definition of_Z (z : Z) : number := binary_normalize prec emax z 0 false.

Definition add : number -> number -> number := SFadd prec emax.
Definition sub : number -> number -> number := SFsub prec emax.
Definition mul : number -> number -> number := SFmul prec emax.
Definition div : number -> number -> number := SFdiv prec emax.

(** [x < y], [x > y], [x >= y], [x <= y] and [x === y] on numbers; every
    comparison with NaN is false and [+0 === -0]. *)
Definition lt (x y : number) : bool := SFltb x y.
Definition gt (x y : number) : bool := SFltb y x.
Definition ge (x y : number) : bool := SFleb y x.
Definition le (x y : number) : bool := SFleb x y.
Definition strict_eq (x y : number) : bool := SFeqb x y.

(** ToBoolean on a number: [0], [-0] and [NaN] are falsy. *)
Definition truthy (x : number) : bool :=
  match x with
  | S754_zero _ | S754_nan => false
  | S754_infinity _ | S754_finite _ _ _ => true
  end.

Definition zero : number := S754_zero false.

Definition is_nan (x : number) : bool :=
  match x with S754_nan => true | _ => false end.

(** A decimal literal with two fractional digits, [cents 4550] being
    [45.5]: the double nearest to [z / 100]. *)
Definition cents (z : Z) : number := div (of_Z z) (of_Z 100).

Definition Math_abs (x : number) : number := SFabs x.

(** [Math.round]: the nearest integer, ties towards +infinity; the sign of
    a zero result is the sign of the argument.  A finite double
    [(-1)^s * m * 2^e] with [e >= 0] is already integral. *)
Definition Math_round (x : number) : number :=
  match x with
  | S754_finite s m (Zneg k) =>
      let twice_plus_half := 2 * cond_Zopp s (Zpos m) + 2 ^ Zpos k in
      binary_normalize prec emax (twice_plus_half / 2 ^ (Zpos k + 1)) 0 s
  | _ => x
  end.

(** A rendering of a double as sign, mantissa and binary exponent.  It
    stands in for [Number::toString] in concrete runs only. *)
Definition show_dyadic (x : number) : string :=
  match x with
  | S754_zero _ => "0"
  | S754_nan => "NaN"
  | S754_infinity s => if s then "-Infinity" else "Infinity"
  | S754_finite s m e =>
      ((if s then "-" else "")
         ++ NilZero.string_of_int (Z.to_int (Zpos m))
         ++ "*2^" ++ NilZero.string_of_int (Z.to_int e))%string
  end.

End Number.

Import Number.

(* ================================================================== *)
(** ** JavaScript strings and optional values *)
(* ================================================================== *)

(** [!s] on an optional string; a property that may be absent
    ([undefined]) is an [option], and [undefined] and the empty string are
    falsy. *)
Definition falsy_string (s : option string) : bool :=
  match s with
  | None => true
  | Some EmptyString => true
  | Some (String _ _) => false
  end.

(** [n || 0] on an optional number. *)
Definition or_zero (n : option number) : number :=
  match n with
  | Some x => if truthy x then x else zero
  | None => zero
  end.

(** [error?.message || 'Unknown error']; an absent message is the empty
    string. *)
Definition message_or_unknown (message : string) : string :=
  match message with
  | EmptyString => "Unknown error"%string
  | String _ _ => message
  end.

(** [s.includes(part)] as a proposition. *)
Definition includes (s part : string) : Prop :=
  exists before after : string, s = (before ++ part ++ after)%string.

(** [xs.join(sep)] *)
Definition join (sep : string) (xs : list string) : string :=
  String.concat sep xs.

(* ================================================================== *)
(** ** Types of [src/types.ts] *)
(* ================================================================== *)

Inductive Status : Type :=
| Unreconciled | Reconciled | Settled | Pending | Cancelled.

Record BankTransaction : Type := {
  bt_name : option string;
  date : string;
  deposit : option number;
  withdrawal : option number;
  description : string;
  reference_number : option string;
  transaction_id : option string;
  bank_account : string;
  bt_company : option string;
  currency : option string;
  status : option Status
}.

(** The declared type makes [account] mandatory, but values arrive as JSON
    cast with [as JournalEntry], and the validator tests [!account.account];
    the same holds for [posting_date], [company] and [accounts]. *)
Record JournalEntryAccount : Type := {
  account : option string;
  debit_in_account_currency : option number;
  credit_in_account_currency : option number;
  user_remark : option string;
  reference_type : option string;
  reference_name : option string
}.

Record JournalEntry : Type := {
  voucher_type : option string;
  posting_date : option string;
  company : option string;
  accounts : option (list JournalEntryAccount);
  je_user_remark : option string;
  cheque_no : option string;
  cheque_date : option string
}.

Record JournalEntryValidation : Type := {
  is_valid : bool;
  total_debit : number;
  total_credit : number;
  difference : number;
  errors : list string;
  warnings : list string
}.

(** [validation.errors.push(e); validation.is_valid = false] *)
Definition push_error (v : JournalEntryValidation) (e : string)
  : JournalEntryValidation :=
  {| is_valid := false;
     total_debit := total_debit v;
     total_credit := total_credit v;
     difference := difference v;
     errors := errors v ++ [e];
     warnings := warnings v |}.

(** [validation.warnings.push(w)] *)
Definition push_warning (v : JournalEntryValidation) (w : string)
  : JournalEntryValidation :=
  {| is_valid := is_valid v;
     total_debit := total_debit v;
     total_credit := total_credit v;
     difference := difference v;
     errors := errors v;
     warnings := warnings v ++ [w] |}.

(** [validation.total_debit += debit; validation.total_credit += credit] *)
Definition accumulate (v : JournalEntryValidation) (debit credit : number)
  : JournalEntryValidation :=
  {| is_valid := is_valid v;
     total_debit := add (total_debit v) debit;
     total_credit := add (total_credit v) credit;
     difference := difference v;
     errors := errors v;
     warnings := warnings v |}.

Definition initial_validation : JournalEntryValidation :=
  {| is_valid := true;
     total_debit := zero;
     total_credit := zero;
     difference := zero;
     errors := [];
     warnings := [] |}.

Definition both_sides_warning (name : string) : string :=
  ("Account " ++ name ++ " has both debit and credit - this is unusual")%string.

Definition neither_side_error (name : string) : string :=
  ("Account " ++ name ++ " has neither debit nor credit")%string.

Definition account_required_error : string :=
  "Account name is required for all entries"%string.

(** The body of the loop [for (const account of journalEntry.accounts)]. *)
Definition validate_line (v : JournalEntryValidation) (a : JournalEntryAccount)
  : JournalEntryValidation :=
  match account a with
  | None | Some EmptyString => push_error v account_required_error
  | Some name =>
      let debit := or_zero (debit_in_account_currency a) in
      let credit := or_zero (credit_in_account_currency a) in
      let v1 := accumulate v debit credit in
      let v2 :=
        if gt debit zero && gt credit zero
        then push_warning v1 (both_sides_warning name)
        else v1 in
      if strict_eq debit zero && strict_eq credit zero
      then push_error v2 (neither_side_error name)
      else v2
  end.

(** [Math.round(x * 100) / 100] *)
Definition round_to_cents (x : number) : number :=
  div (Math_round (mul x (of_Z 100))) (of_Z 100).

(** The tolerance literal [0.01]. *)
Definition tolerance : number := cents 1.

(** The lines of a draft, none when [accounts] is absent. *)
Definition lines_of (journalEntry : JournalEntry) : list JournalEntryAccount :=
  match accounts journalEntry with
  | Some lines => lines
  | None => []
  end.

Definition has_account (a : JournalEntryAccount) : bool :=
  negb (falsy_string (account a)).

(** The amounts a line contributes after [|| 0]. *)
Definition debit_of (a : JournalEntryAccount) : number :=
  or_zero (debit_in_account_currency a).
Definition credit_of (a : JournalEntryAccount) : number :=
  or_zero (credit_in_account_currency a).

(** The running totals of the loop: amounts of the lines that name an
    account, added from left to right starting at [0]. *)
Definition debit_sum (lines : list JournalEntryAccount) : number :=
  fold_left (fun acc a => if has_account a then add acc (debit_of a) else acc)
            lines zero.
Definition credit_sum (lines : list JournalEntryAccount) : number :=
  fold_left (fun acc a => if has_account a then add acc (credit_of a) else acc)
            lines zero.

(** The totals and the difference the validator reports for given lines. *)
Definition rounded_debit (lines : list JournalEntryAccount) : number :=
  round_to_cents (debit_sum lines).
Definition rounded_credit (lines : list JournalEntryAccount) : number :=
  round_to_cents (credit_sum lines).
Definition rounded_difference (lines : list JournalEntryAccount) : number :=
  round_to_cents (sub (rounded_debit lines) (rounded_credit lines)).

(** A line that is neither without account nor without amount. *)
Definition well_formed_line (a : JournalEntryAccount) : bool :=
  has_account a
  && negb (strict_eq (debit_of a) zero && strict_eq (credit_of a) zero).

(* ================================================================== *)
(** ** The remote ledger and the HTTP requests sent to it *)
(* ================================================================== *)

(** The outcome of an awaited call: a value, or a thrown [Error] carrying
    its [message] (the empty string when the message is absent). *)
Inductive Result (A : Type) : Type :=
| Ok (value : A)
| Throw (message : string).

Arguments Ok {A} value.
Arguments Throw {A} message.

(** The [date] entry of the filter object built by the search. *)
Inductive DateFilter : Type :=
| DateFrom (fromDate : string)                 (* ['>=', fromDate] *)
| DateUntil (toDate : string)                  (* ['<=', toDate] *)
| DateBetween (fromDate toDate : string).      (* ['between', [fromDate, toDate]] *)

Record Filters : Type := {
  filter_bank_account : option string;
  filter_company : option string;
  filter_status : option string;
  filter_date : option DateFilter
}.

(** [response.data.data] of a created or submitted document: an open-ended
    object of which the client reads [name]. *)
Record RemoteDoc : Type := {
  name : string;
  fields : list (string * string)
}.

Inductive Request : Type :=
| GET_resource (doctype : string) (filters : Filters) (columns : list string)
| POST_resource (doctype : string) (doc : JournalEntry)
| POST_method (methodPath : string) (doctype : string) (docname : string).

(** The client's view of the world: the state of the remote ledger and the
    requests issued so far, oldest first. *)
Record World (Remote : Type) : Type := {
  remote : Remote;
  requests : list Request
}.

Arguments remote {Remote} w.
Arguments requests {Remote} w.

(** Arguments of the [create_journal_entry] tool and the content it returns. *)
Record CreateArguments : Type := {
  arg_journal_entry : option JournalEntry;
  arg_skip_validation : option bool;
  arg_submit : option bool
}.

Record ToolResult : Type := {
  text : string;
  isError : bool
}.

(** [b || false] on an optional boolean argument. *)
Definition or_false (b : option bool) : bool :=
  match b with Some true => true | _ => false end.

(** An optional string argument that is truthy. *)
Definition given (s : option string) : option string :=
  if falsy_string s then None else s.

(* ================================================================== *)
(** ** Outcomes of a batch *)
(* ================================================================== *)









(* ================================================================== *)
(** ** An in-memory ledger, used to run the client on concrete inputs *)
(* ================================================================== *)

Module MemoryLedger.

Record Ledger : Type := {
  stored : list (string * JournalEntry);
  posted : list string;
  bank_transactions : list BankTransaction;
  accepts_submit : bool
}.

Definition empty : Ledger :=
  {| stored := []; posted := []; bank_transactions := []; accepts_submit := true |}.

(** A ledger holding the given bank transactions. *)
Definition with_transactions (ts : list BankTransaction) : Ledger :=
  {| stored := []; posted := []; bank_transactions := ts; accepts_submit := true |}.

(** A ledger that stores documents but rejects every submission. *)
Definition rejecting_submit : Ledger :=
  {| stored := []; posted := []; bank_transactions := []; accepts_submit := false |}.

Definition next_name (l : Ledger) : string :=
  ("JV-" ++ NilZero.string_of_uint (Nat.to_uint (List.length (stored l))))%string.

Definition get (doctype : string) (filters : Filters) (columns : list string)
           (l : Ledger) : Result (list BankTransaction) * Ledger :=
  (Ok (bank_transactions l), l).

Definition post_resource (doctype : string) (doc : JournalEntry) (l : Ledger)
  : Result RemoteDoc * Ledger :=
  (Ok {| name := next_name l; fields := [] |},
   {| stored := stored l ++ [(next_name l, doc)];
      posted := posted l;
      bank_transactions := bank_transactions l;
      accepts_submit := accepts_submit l |}).

Definition post_method (methodPath doctype docname : string) (l : Ledger)
  : Result RemoteDoc * Ledger :=
  if accepts_submit l
  then (Ok {| name := docname; fields := [("docstatus", "1")] |},
        {| stored := stored l;
           posted := posted l ++ [docname];
           bank_transactions := bank_transactions l;
           accepts_submit := true |})
  else (Throw "Request failed with status code 417", l).

Definition stringify (d : RemoteDoc) : string := name d.

Definition start (l : Ledger) : World Ledger :=
  {| remote := l; requests := [] |}.

End MemoryLedger.

(* ================================================================== *)
(** ** Errors of the protocol layer *)
(* ================================================================== *)

(** [ErrorCode.InvalidParams] of the protocol library. *)
Definition InvalidParams : Z := -32602.

(** The message of [new McpError(code, message)]: the library's class
    prefixes the message with the code. *)
Definition McpError (code : Z) (message : string) : string :=
  ("MCP error " ++ NilZero.string_of_int (Z.to_int code) ++ ": " ++ message)%string.

(* ================================================================== *)
(** ** The client, [class ERPNextClient] *)
(* ================================================================== *)

Section Client.

(** [Number::toString], used by the template literal of the balance
    error. *)
Variable Number_toString : number -> string.

(** [JSON.stringify(result, null, 2)] *)
Variable JSON_stringify : RemoteDoc -> string.

(** The remote ledger behind [axiosInstance]: each request yields a
    response or a rejection with an error message, and a new ledger. *)
Variable Remote : Type.
Variable remote_get :
  string -> Filters -> list string -> Remote -> Result (list BankTransaction) * Remote.
Variable remote_post_resource :
  string -> JournalEntry -> Remote -> Result RemoteDoc * Remote.
Variable remote_post_method :
  string -> string -> string -> Remote -> Result RemoteDoc * Remote.

(** *** Awaited computations: state passing over the world, with throw *)

Definition M (A : Type) : Type := World Remote -> Result A * World Remote.

Definition ret {A : Type} (a : A) : M A := fun w => (Ok a, w).

Definition throw {A : Type} (message : string) : M A :=
  fun w => (Throw message, w).

Definition bind {A B : Type} (m : M A) (k : A -> M B) : M B :=
  fun w =>
    match m w with
    | (Ok a, w') => k a w'
    | (Throw message, w') => (Throw message, w')
    end.

(** [try { m } catch (error) { handler(error.message) }] *)
Definition try_catch {A : Type} (m : M A) (handler : string -> M A) : M A :=
  fun w =>
    match m w with
    | (Ok a, w') => (Ok a, w')
    | (Throw message, w') => handler message w'
    end.

Notation "x <- m ;; k" := (bind m (fun x => k))
  (at level 61, m at next level, right associativity).

(** One request to the ledger, recorded in [requests]. *)
Definition send {A : Type} (r : Request)
           (serve : Remote -> Result A * Remote) : M A :=
  fun w =>
    let (response, remote') := serve (remote w) in
    (response, {| remote := remote'; requests := requests w ++ [r] |}).

(** *** [validateJournalEntry] *)

Definition unbalanced_error (v : JournalEntryValidation) : string :=
  ("Debits (" ++ Number_toString (total_debit v)
     ++ ") do not equal credits (" ++ Number_toString (total_credit v)
     ++ "). Difference: " ++ Number_toString (difference v))%string.

(** The three assignments that round the totals and set [difference]. *)
Definition round_totals (v : JournalEntryValidation) : JournalEntryValidation :=
  let debit := round_to_cents (total_debit v) in
  let credit := round_to_cents (total_credit v) in
  {| is_valid := is_valid v;
     total_debit := debit;
     total_credit := credit;
     difference := round_to_cents (sub debit credit);
     errors := errors v;
     warnings := warnings v |}.

(** The checks of [posting_date] and [company]. *)
Definition check_required_fields (journalEntry : JournalEntry)
  : JournalEntryValidation :=
  let v0 := initial_validation in
  let v1 :=
    if falsy_string (posting_date journalEntry)
    then push_error v0 "posting_date is required" else v0 in
  if falsy_string (company journalEntry)
  then push_error v1 "company is required" else v1.

(** [if (journalEntry.accounts.length < 2)] *)
Definition check_two_lines (lines : list JournalEntryAccount)
           (v : JournalEntryValidation) : JournalEntryValidation :=
  if (List.length lines <? 2)%nat
  then push_error v "Journal entry must have at least 2 account entries"
  else v.

(** Rounding, and [if (Math.abs(validation.difference) > 0.01)]. *)
Definition check_balance (v : JournalEntryValidation) : JournalEntryValidation :=
  let rounded := round_totals v in
  if gt (Math_abs (difference rounded)) tolerance
  then push_error rounded (unbalanced_error rounded)
  else rounded.

Definition validateJournalEntry (journalEntry : JournalEntry)
  : JournalEntryValidation :=
  let v := check_required_fields journalEntry in
  match accounts journalEntry with
  | None | Some [] => push_error v "At least one account entry is required"
  | Some lines =>
      check_balance (fold_left validate_line lines (check_two_lines lines v))
  end.

(** The validity flag is true exactly while no error has been pushed. *)
Definition consistent (v : JournalEntryValidation) : Prop :=
  is_valid v = true <-> errors v = [].

(** The call [await this.validateJournalEntry(journalEntry)].  The method
    receives a reference to the caller's draft; the pair is the returned
    validation and the draft object as it is after the call. *)
Definition validateJournalEntry_call (journalEntry : JournalEntry)
  : M (JournalEntryValidation * JournalEntry) :=
  ret (validateJournalEntry journalEntry, journalEntry).

(** *** [getDocList], [createDocument], [callMethod] *)

Definition getDocList (doctype : string) (filters : Filters)
           (columns : list string) : M (list BankTransaction) :=
  try_catch
    (send (GET_resource doctype filters columns)
          (remote_get doctype filters columns))
    (fun message =>
       throw ("Failed to get " ++ doctype ++ " list: "
                ++ message_or_unknown message)%string).

Definition createDocument (doctype : string) (doc : JournalEntry) : M RemoteDoc :=
  try_catch
    (send (POST_resource doctype doc) (remote_post_resource doctype doc))
    (fun message =>
       throw ("Failed to create " ++ doctype ++ ": "
                ++ message_or_unknown message)%string).

(** [callMethod(methodPath, {doc: JSON.stringify({doctype, name})})] *)
Definition callMethod (methodPath doctype docname : string) : M RemoteDoc :=
  try_catch
    (send (POST_method methodPath doctype docname)
          (remote_post_method methodPath doctype docname))
    (fun message =>
       throw ("Failed to call method " ++ methodPath ++ ": "
                ++ message_or_unknown message)%string).

(** *** [createJournalEntry], [submitJournalEntry] *)

(** Validation unless skipped, then the creation request; whatever is
    thrown inside is rethrown with the prefix of this method. *)
Definition createJournalEntry (journalEntry : JournalEntry)
           (skipValidation : bool) : M RemoteDoc :=
  try_catch
    (checked <-
       (if skipValidation then ret journalEntry
        else
          r <- validateJournalEntry_call journalEntry ;;
          if is_valid (fst r) then ret (snd r)
          else throw ("Journal entry validation failed: "
                        ++ join ", " (errors (fst r)))%string) ;;
     createDocument "Journal Entry" checked)
    (fun message =>
       throw ("Failed to create journal entry: "
                ++ message_or_unknown message)%string).

Definition submitJournalEntry (journalEntryName : string) : M RemoteDoc :=
  try_catch
    (callMethod "frappe.client.submit" "Journal Entry" journalEntryName)
    (fun message =>
       throw ("Failed to submit journal entry " ++ journalEntryName ++ ": "
                ++ message_or_unknown message)%string).

(** *** [searchBankTransactions] *)

Definition bank_transaction_columns : list string :=
  ["name"; "date"; "deposit"; "withdrawal"; "description";
   "reference_number"; "transaction_id"; "bank_account"; "company";
   "currency"; "status"].

(** The filter object: each truthy argument adds its entry; [fromDate] sets
    [date] to ['>=', fromDate], and [toDate] turns that into a ['between']
    or, without [fromDate], sets ['<=', toDate]. *)
Definition search_filters (bankAccount company status fromDate toDate : option string)
  : Filters :=
  {| filter_bank_account := given bankAccount;
     filter_company := given company;
     filter_status := given status;
     filter_date :=
       match given fromDate, given toDate with
       | Some f, Some t => Some (DateBetween f t)
       | Some f, None => Some (DateFrom f)
       | None, Some t => Some (DateUntil t)
       | None, None => None
       end |}.

(** [t.deposit || t.withdrawal || 0] *)
Definition amount (t : BankTransaction) : number :=
  match deposit t with
  | Some d => if truthy d then d else or_zero (withdrawal t)
  | None => or_zero (withdrawal t)
  end.

(** The callback of [filtered.filter]. *)
Definition amount_in_range (minAmount maxAmount : option number)
           (t : BankTransaction) : bool :=
  if match minAmount with Some m => lt (amount t) m | None => false end
  then false
  else if match maxAmount with Some m => gt (amount t) m | None => false end
  then false
  else true.

Definition filter_by_amount (minAmount maxAmount : option number)
           (transactions : list BankTransaction) : list BankTransaction :=
  match minAmount, maxAmount with
  | None, None => transactions
  | _, _ => filter (amount_in_range minAmount maxAmount) transactions
  end.

Definition searchBankTransactions
           (bankAccount company status fromDate toDate : option string)
           (minAmount maxAmount : option number) : M (list BankTransaction) :=
  try_catch
    (transactions <-
       getDocList "Bank Transaction"
         (search_filters bankAccount company status fromDate toDate)
         bank_transaction_columns ;;
     ret (filter_by_amount minAmount maxAmount transactions))
    (fun message =>
       throw ("Failed to search bank transactions: "
                ++ message_or_unknown message)%string).

(** *** The [create_journal_entry] tool *)

Definition not_authenticated : ToolResult :=
  {| text := "Not authenticated with ERPNext. Please configure API key authentication.";
     isError := true |}.

Definition create_journal_entry (authenticated : bool) (args : CreateArguments)
  : M ToolResult :=
  if negb authenticated then ret not_authenticated
  else
    match arg_journal_entry args with
    | None => throw (McpError InvalidParams "journal_entry is required")
    | Some journalEntry =>
        let skipValidation := or_false (arg_skip_validation args) in
        let submit := or_false (arg_submit args) in
        try_catch
          (result <- createJournalEntry journalEntry skipValidation ;;
           let message :=
             ("Journal Entry created successfully: " ++ name result
                ++ String "010" (String "010" ""))%string in
           message' <-
             (if submit
              then
                _ <- submitJournalEntry (name result) ;;
                ret (message ++ "Journal Entry submitted (posted) successfully."
                       ++ String "010" (String "010" ""))%string
              else ret message) ;;
           ret {| text := (message' ++ JSON_stringify result)%string;
                  isError := false |})
          (fun message =>
             ret {| text := ("Failed to create journal entry: "
                               ++ message_or_unknown message)%string;
                    isError := true |})
    end.

(** *** The batch orchestrator *)





(** *** The search predicate as the specification words it *)

(** The specification's amount: [deposit] if [deposit > 0], else
    [withdrawal]. *)
Definition spec_amount (t : BankTransaction) : option number :=
  match deposit t with
  | Some d => if gt d zero then Some d else withdrawal t
  | None => withdrawal t
  end.

(** The specification's residual predicate: [amount >= minAmount] when
    given and [amount <= maxAmount] when given. *)
Definition spec_retains (minAmount maxAmount : option number)
           (t : BankTransaction) : bool :=
  match spec_amount t with
  | Some a =>
      match minAmount with Some m => ge a m | None => true end
      && match maxAmount with Some m => le a m | None => true end
  | None => false
  end.

(** [amount >= minAmount] when given and [amount <= maxAmount] when
    given. *)
Definition within_bounds (minAmount maxAmount : option number) (x : number)
  : bool :=
  match minAmount with Some m => ge x m | None => true end
  && match maxAmount with Some m => le x m | None => true end.

(** A transaction as the ledger stores it: the deposit is positive, or the
    deposit is absent, zero or NaN and the withdrawal is present and not
    NaN. *)
Definition ordinary (t : BankTransaction) : bool :=
  let numeric_withdrawal :=
    match withdrawal t with Some wd => negb (is_nan wd) | None => false end in
  match deposit t with
  | Some d => gt d zero || (negb (lt d zero) && numeric_withdrawal)
  | None => numeric_withdrawal
  end.

(** A bound that, when given, is not NaN (JSON carries no NaN). *)
Definition proper_bound (bound : option number) : Prop :=
  forall m : number, bound = Some m -> is_nan m = false.

(** *** Sample data *)

Definition line (name : string) (debit credit : option number)
  : JournalEntryAccount :=
  {| account := Some name;
     debit_in_account_currency := debit;
     credit_in_account_currency := credit;
     user_remark := None;
     reference_type := None;
     reference_name := None |}.

Definition draft (postingDate companyName : option string)
           (lines : option (list JournalEntryAccount)) : JournalEntry :=
  {| voucher_type := Some "Journal Entry";
     posting_date := postingDate;
     company := companyName;
     accounts := lines;
     je_user_remark := None;
     cheque_no := None;
     cheque_date := None |}.

Definition transaction (label : string) (dep wd : option number)
  : BankTransaction :=
  {| bt_name := Some label;
     date := "2025-02-15";
     deposit := dep;
     withdrawal := wd;
     description := label;
     reference_number := None;
     transaction_id := None;
     bank_account := "Checking";
     bt_company := Some "Personal";
     currency := None;
     status := Some Unreconciled |}.

(** The salary entry of the documentation: 1500.00 debited to checking and
    credited to income. *)
Definition salary_entry : JournalEntry :=
  draft (Some "2025-02-28") (Some "Personal")
        (Some [line "1111 - Checking - Personal" (Some (cents 150000)) (Some zero);
               line "4100 - Salary Income - Personal" (Some zero) (Some (cents 150000))]).

(** An entry whose debits exceed its credits by 0.50. *)
Definition unbalanced_entry : JournalEntry :=
  draft (Some "2025-02-15") (Some "Personal")
        (Some [line "5200 - Utilities - Personal" (Some (cents 25000)) None;
               line "1111 - Checking - Personal" None (Some (cents 24950))]).

(** A balanced entry with a third line that carries no amount. *)
Definition entry_with_empty_line : JournalEntry :=
  draft (Some "2025-02-15") (Some "Personal")
        (Some [line "5200 - Utilities - Personal" (Some (cents 25000)) None;
               line "1111 - Checking - Personal" None (Some (cents 25000));
               line "5410 - Groceries - Personal" None None]).

(** A draft without lines and without a posting date. *)
Definition undated_empty_entry : JournalEntry :=
  draft None (Some "Personal") (Some []).

(** Two lines with negative amounts on both sides. *)
Definition negative_entry : JournalEntry :=
  draft (Some "2025-02-15") (Some "Personal")
        (Some [line "5200 - Utilities - Personal" (Some (cents (-10000))) (Some (cents (-5000)));
               line "1111 - Checking - Personal" (Some (cents (-5000))) (Some (cents (-10000)))]).

Definition deposit_1500 : BankTransaction :=
  transaction "Salary Deposit" (Some (of_Z 1500)) None.
Definition withdrawal_250 : BankTransaction :=
  transaction "Utility Payment" None (Some (of_Z 250)).
Definition withdrawal_45_50 : BankTransaction :=
  transaction "Grocery Store" None (Some (cents 4550)).

(** A transaction carrying a negative deposit next to a withdrawal. *)
Definition reversed_deposit : BankTransaction :=
  transaction "Reversal" (Some (of_Z (-5))) (Some (of_Z 200)).

(* ================================================================ *)
(** ** Bank utilities *)
(* ================================================================ *)

(** ['income' | 'expense'] *)
Inductive TransactionType : Type :=
| income
| expense.

(** A line of a generated entry: both amounts are written, the remark is
    the description. *)
Definition generated_line (name : string) (debit credit : number)
           (description : string) : JournalEntryAccount :=
  {| account := Some name;
     debit_in_account_currency := Some debit;
     credit_in_account_currency := Some credit;
     user_remark := Some description;
     reference_type := None;
     reference_name := None |}.

(** Income debits the bank account and credits the income account; an
    expense debits the expense account and credits the bank account. *)
Definition createJournalEntryForTransaction
           (transactionType : TransactionType) (amount : number)
           (incomeOrExpenseAccount bankAccount date company description : string)
  : JournalEntry :=
  {| voucher_type := Some "Journal Entry";
     posting_date := Some date;
     company := Some company;
     accounts :=
       Some match transactionType with
            | income =>
                [generated_line bankAccount amount zero description;
                 generated_line incomeOrExpenseAccount zero amount description]
            | expense =>
                [generated_line incomeOrExpenseAccount amount zero description;
                 generated_line bankAccount zero amount description]
            end;
     je_user_remark := Some description;
     cheque_no := None;
     cheque_date := None |}.

(** The characters of the class [[$,\s]] among the code units below 256:
    dollar, comma, tab, line feed, vertical tab, form feed, carriage return,
    space and no-break space. *)
Definition is_currency_noise (c : ascii) : bool :=
  match nat_of_ascii c with
  | 36%nat | 44%nat | 9%nat | 10%nat | 11%nat | 12%nat | 13%nat | 32%nat
  | 160%nat => true
  | _ => false
  end.

(** [s.replace(/[$,\s]/g, '')] *)
Fixpoint strip_currency (s : string) : string :=
  match s with
  | EmptyString => EmptyString
  | String c rest =>
      if is_currency_noise c then strip_currency rest
      else String c (strip_currency rest)
  end.

(** An argument of type [string | number]. *)
Inductive AmountInput : Type :=
| AmountNumber (n : number)
| AmountString (s : string).

(** The object [{ deposit, withdrawal }]. *)
Record Categorized : Type := {
  categorized_deposit : number;
  categorized_withdrawal : number
}.

(** [parseFloat] *)
Variable parseFloat : string -> number.

Definition parseAmount (amountStr : AmountInput) : Result number :=
  match amountStr with
  | AmountNumber n => Ok (Math_abs n)
  | AmountString s =>
      let parsed := parseFloat (strip_currency s) in
      if is_nan parsed
      then Throw ("Invalid amount format: " ++ s)%string
      else Ok (Math_abs parsed)
  end.

(** [typeof amount === 'string' ? parseFloat(amount.replace(...)) : amount] *)
Definition numeric_amount (amount : AmountInput) : number :=
  match amount with
  | AmountString s => parseFloat (strip_currency s)
  | AmountNumber n => n
  end.

Definition categorizeAmount (amount : AmountInput) : Categorized :=
  let numAmount := numeric_amount amount in
  if ge numAmount zero
  then {| categorized_deposit := Math_abs numAmount; categorized_withdrawal := zero |}
  else {| categorized_deposit := zero; categorized_withdrawal := Math_abs numAmount |}.

(* ================================================================ *)
(** ** The tools [validate_journal_entry], [submit_journal_entry] and
       [search_bank_transactions] *)
(* ================================================================ *)

(** [x.toFixed(2)] *)
Variable Number_toFixed2 : number -> string.

(** [JSON.stringify(transactions, null, 2)] *)
Variable JSON_stringify_transactions : list BankTransaction -> string.

Definition newline : string := String "010" "".

(** [items.map(e => `  - ${e}`).join('\n')] *)
Definition bullet_list (items : list string) : string :=
  join newline (map (fun e => "  - " ++ e)%string items).

(** The summary assembled by the [validate_journal_entry] tool. *)
Definition validation_summary (validation : JournalEntryValidation) : string :=
  let summary :=
    ("Journal Entry Validation Result:" ++ newline ++ newline
       ++ ("Valid: " ++ (if is_valid validation then "Yes" else "No") ++ newline)
       ++ ("Total Debit: " ++ Number_toFixed2 (total_debit validation) ++ newline)
       ++ ("Total Credit: " ++ Number_toFixed2 (total_credit validation) ++ newline)
       ++ ("Difference: " ++ Number_toFixed2 (difference validation)
             ++ newline ++ newline))%string in
  let summary1 :=
    match errors validation with
    | [] => summary
    | _ :: _ =>
        (summary ++ "Errors:" ++ newline ++ bullet_list (errors validation)
           ++ newline ++ newline)%string
    end in
  match warnings validation with
  | [] => summary1
  | _ :: _ =>
      (summary1 ++ "Warnings:" ++ newline ++ bullet_list (warnings validation)
         ++ newline)%string
  end.

Definition submit_journal_entry (authenticated : bool)
           (journal_entry_name : option string) : M ToolResult :=
  if negb authenticated then ret not_authenticated
  else
    match given journal_entry_name with
    | None => throw (McpError InvalidParams "journal_entry_name is required")
    | Some journalEntryName =>
        try_catch
          (result <- submitJournalEntry journalEntryName ;;
           ret {| text := ("Journal Entry " ++ journalEntryName
                             ++ " submitted successfully:" ++ newline ++ newline
                             ++ JSON_stringify result)%string;
                  isError := false |})
          (fun message =>
             ret {| text := ("Failed to submit journal entry " ++ journalEntryName
                               ++ ": " ++ message_or_unknown message)%string;
                    isError := true |})
    end.

(** Arguments of the [search_bank_transactions] tool. *)
Record SearchArguments : Type := {
  arg_bank_account : option string;
  arg_company : option string;
  arg_status : option string;
  arg_from_date : option string;
  arg_to_date : option string;
  arg_min_amount : option number;
  arg_max_amount : option number
}.

Definition search_bank_transactions (authenticated : bool)
           (args : SearchArguments) : M ToolResult :=
  if negb authenticated then ret not_authenticated
  else
    try_catch
      (transactions <-
         searchBankTransactions
           (arg_bank_account args) (arg_company args) (arg_status args)
           (arg_from_date args) (arg_to_date args)
           (arg_min_amount args) (arg_max_amount args) ;;
       ret {| text := JSON_stringify_transactions transactions;
              isError := false |})
      (fun message =>
         ret {| text := ("Failed to search bank transactions: "
                           ++ message_or_unknown message)%string;
                isError := true |}).

(* ================================================================ *)
(** ** The validator, statement by statement, on a heap of objects *)
(* ================================================================ *)

(** The objects the validator deals with: the caller's draft and the
    validation it builds.  A draft owns its lines, a validation its two
    arrays. *)
Inductive Object : Type :=
| ObjDraft (journalEntry : JournalEntry)
| ObjValidation (validation : JournalEntryValidation).

(** The state of a run: the objects allocated so far, addressed by their
    position, and the world of the client. *)
Record Machine : Type := {
  heap : list Object;
  net : World Remote
}.

(** Programs over the machine, with throw. *)
Definition P (A : Type) : Type := Machine -> Result A * Machine.

Definition pure {A : Type} (a : A) : P A := fun m => (Ok a, m).

Definition raise {A : Type} (message : string) : P A :=
  fun m => (Throw message, m).

Definition and_then {A B : Type} (p : P A) (k : A -> P B) : P B :=
  fun m =>
    match p m with
    | (Ok a, m') => k a m'
    | (Throw message, m') => (Throw message, m')
    end.

(** [try { p } catch (error) { handler(error.message) }] *)
Definition attempt {A : Type} (p : P A) (handler : string -> P A) : P A :=
  fun m =>
    match p m with
    | (Ok a, m') => (Ok a, m')
    | (Throw message, m') => handler message m'
    end.

Notation "'let*' x ':=' p 'in' k" := (and_then p (fun x => k))
  (at level 10, x name, p at level 100, k at level 200).

Notation "p >> k" := (and_then p (fun _ => k))
  (at level 62, right associativity).

(** A computation of the client run on the world of the machine. *)
Definition on_the_net {A : Type} (c : M A) : P A :=
  fun m =>
    let (r, w') := c (net m) in
    (r, {| heap := heap m; net := w' |}).

(** [if (c) { body }] *)
Definition when (c : bool) (body : P unit) : P unit :=
  if c then body else pure tt.

(** [for (const x of xs) { body }] *)
Fixpoint for_each {A : Type} (xs : list A) (body : A -> P unit) : P unit :=
  match xs with
  | [] => pure tt
  | x :: rest => body x >> for_each rest body
  end.

(** An object literal: a new object at the next free position. *)
Definition new_object (o : Object) : P nat :=
  fun m => (Ok (List.length (heap m)),
            {| heap := heap m ++ [o]; net := net m |}).

(** The heap with the object at a position replaced. *)
Fixpoint replace_at (l : nat) (o : Object) (h : list Object) : list Object :=
  match h, l with
  | [], _ => []
  | _ :: rest, O => o :: rest
  | x :: rest, S l' => x :: replace_at l' o rest
  end.

(** A property read of a draft; a reference that holds no draft is outside
    the declared types, and the read throws. *)
Definition get_field {A : Type} (journalEntry : nat) (field : JournalEntry -> A)
  : P A :=
  fun m =>
    match nth_error (heap m) journalEntry with
    | Some (ObjDraft je) => (Ok (field je), m)
    | _ => (Throw "TypeError: not a journal entry", m)
    end.

(** [journalEntry.accounts] where the code goes on to read [length] or to
    iterate: an absent array throws. *)
Definition get_lines (journalEntry : nat) : P (list JournalEntryAccount) :=
  let* lines := get_field journalEntry accounts in
  match lines with
  | Some l => pure l
  | None => raise "TypeError: Cannot read properties of undefined"
  end.

Definition get_validation (validation : nat) : P JournalEntryValidation :=
  fun m =>
    match nth_error (heap m) validation with
    | Some (ObjValidation v) => (Ok v, m)
    | _ => (Throw "TypeError: not a validation", m)
    end.

(** A write to the validation object. *)
Definition update_validation (validation : nat)
           (f : JournalEntryValidation -> JournalEntryValidation) : P unit :=
  let* v := get_validation validation in
  fun m => (Ok tt, {| heap := replace_at validation (ObjValidation (f v)) (heap m);
                      net := net m |}).

(** [validation.errors.push(e)] *)
Definition errors_push (validation : nat) (e : string) : P unit :=
  update_validation validation
    (fun v => {| is_valid := is_valid v;
                 total_debit := total_debit v;
                 total_credit := total_credit v;
                 difference := difference v;
                 errors := errors v ++ [e];
                 warnings := warnings v |}).

(** [validation.warnings.push(w)] *)
Definition warnings_push (validation : nat) (w : string) : P unit :=
  update_validation validation
    (fun v => {| is_valid := is_valid v;
                 total_debit := total_debit v;
                 total_credit := total_credit v;
                 difference := difference v;
                 errors := errors v;
                 warnings := warnings v ++ [w] |}).

(** [validation.is_valid = b] *)
Definition set_is_valid (validation : nat) (b : bool) : P unit :=
  update_validation validation
    (fun v => {| is_valid := b;
                 total_debit := total_debit v;
                 total_credit := total_credit v;
                 difference := difference v;
                 errors := errors v;
                 warnings := warnings v |}).

(** [validation.total_debit = f(validation)] *)
Definition set_total_debit (validation : nat)
           (f : JournalEntryValidation -> number) : P unit :=
  update_validation validation
    (fun v => {| is_valid := is_valid v;
                 total_debit := f v;
                 total_credit := total_credit v;
                 difference := difference v;
                 errors := errors v;
                 warnings := warnings v |}).

(** [validation.total_credit = f(validation)] *)
Definition set_total_credit (validation : nat)
           (f : JournalEntryValidation -> number) : P unit :=
  update_validation validation
    (fun v => {| is_valid := is_valid v;
                 total_debit := total_debit v;
                 total_credit := f v;
                 difference := difference v;
                 errors := errors v;
                 warnings := warnings v |}).

(** [validation.difference = f(validation)] *)
Definition set_difference (validation : nat)
           (f : JournalEntryValidation -> number) : P unit :=
  update_validation validation
    (fun v => {| is_valid := is_valid v;
                 total_debit := total_debit v;
                 total_credit := total_credit v;
                 difference := f v;
                 errors := errors v;
                 warnings := warnings v |}).

(** [validation.errors.push(e); validation.is_valid = false] *)
Definition report (validation : nat) (e : string) : P unit :=
  errors_push validation e >> set_is_valid validation false.

(** The body of the loop over the lines. *)
Definition line_statements (validation : nat) (a : JournalEntryAccount) : P unit :=
  match account a with
  | None | Some EmptyString => report validation account_required_error
  | Some name =>
      let debit := or_zero (debit_in_account_currency a) in
      let credit := or_zero (credit_in_account_currency a) in
      set_total_debit validation (fun v => add (total_debit v) debit) >>
      set_total_credit validation (fun v => add (total_credit v) credit) >>
      when (gt debit zero && gt credit zero)
           (warnings_push validation (both_sides_warning name)) >>
      when (strict_eq debit zero && strict_eq credit zero)
           (report validation (neither_side_error name))
  end.

(** The method [validateJournalEntry], given a reference to the draft; it
    returns a reference to the validation object it has built. *)
Definition validateJournalEntry_program (journalEntry : nat) : P nat :=
  let* validation := new_object (ObjValidation initial_validation) in
  let* postingDate := get_field journalEntry posting_date in
  when (falsy_string postingDate)
       (report validation "posting_date is required") >>
  let* companyName := get_field journalEntry company in
  when (falsy_string companyName)
       (report validation "company is required") >>
  let* lines := get_field journalEntry accounts in
  match lines with
  | None | Some [] =>
      report validation "At least one account entry is required" >>
      pure validation
  | Some (_ :: _) =>
      let* lines := get_lines journalEntry in
      when (List.length lines <? 2)%nat
           (report validation
                   "Journal entry must have at least 2 account entries") >>
      let* lines := get_lines journalEntry in
      for_each lines (line_statements validation) >>
      set_total_debit validation (fun v => round_to_cents (total_debit v)) >>
      set_total_credit validation (fun v => round_to_cents (total_credit v)) >>
      set_difference validation
        (fun v => round_to_cents (sub (total_debit v) (total_credit v))) >>
      let* v := get_validation validation in
      when (gt (Math_abs (difference v)) tolerance)
           (let* rounded := get_validation validation in
            report validation (unbalanced_error rounded)) >>
      pure validation
  end.

(** The machine after a run that has built the validation [v] on top of
    the objects [h]. *)
Definition built (h : list Object) (v : JournalEntryValidation)
           (w : World Remote) : Machine :=
  {| heap := h ++ [ObjValidation v]; net := w |}.

(** The [validate_journal_entry] tool, given a reference to the parsed
    argument when there is one. *)
Definition validate_journal_entry (authenticated : bool)
           (journal_entry : option nat) : P ToolResult :=
  if negb authenticated then pure not_authenticated
  else
    match journal_entry with
    | None => raise (McpError InvalidParams "journal_entry is required")
    | Some journalEntry =>
        attempt
          (let* validation := validateJournalEntry_program journalEntry in
           let* v := get_validation validation in
           pure {| text := validation_summary v; isError := false |})
          (fun message =>
             pure {| text := ("Failed to validate journal entry: "
                                ++ message_or_unknown message)%string;
                     isError := true |})
    end.

(** The acceptance test of the validator, read off its checks. *)
Definition accepts (journalEntry : JournalEntry) : bool :=
  negb (falsy_string (posting_date journalEntry))
  && negb (falsy_string (company journalEntry))
  && (2 <=? List.length (lines_of journalEntry))%nat
  && forallb well_formed_line (lines_of journalEntry)
  && negb (gt (Math_abs (rounded_difference (lines_of journalEntry))) tolerance).

(** *** More sample data *)

(** Two lines whose amounts are infinite, as [1e400] is once parsed. *)
Definition overflowing_entry : JournalEntry :=
  draft (Some "2025-02-15") (Some "Personal")
        (Some [line "5200 - Utilities - Personal" (Some (S754_infinity false)) None;
               line "1111 - Checking - Personal" None (Some (S754_infinity false))]).

(** A reader of unsigned decimal integers, NaN on anything else.  It stands
    in for [parseFloat] in concrete runs only. *)
Fixpoint read_digits (s : string) (acc : Z) : option Z :=
  match s with
  | EmptyString => Some acc
  | String c rest =>
      let n := Z.of_nat (nat_of_ascii c) in
      if (48 <=? n) && (n <=? 57)
      then read_digits rest (10 * acc + (n - 48))
      else None
  end.

Definition read_integer (s : string) : number :=
  match s with
  | EmptyString => S754_nan
  | String _ _ =>
      match read_digits s 0 with
      | Some z => of_Z z
      | None => S754_nan
      end
  end.

(* ================================================================ *)
(** ** Properties *)
(* ================================================================ *)

(** *** Facts about numbers *)

Lemma SFcompare_antisym (x y : spec_float) :
  SFcompare y x = option_map CompOpp (SFcompare x y).
Proof.
  destruct x as [sx | sx | | sx mx ex], y as [sy | sy | | sy my ey];
    simpl; try reflexivity;
    try (destruct sx; reflexivity);
    try (destruct sy; reflexivity);
    try (destruct sx, sy; reflexivity).
  destruct sx, sy; simpl; try reflexivity;
    rewrite (Z.compare_antisym ey ex);
    destruct (ey ?= ex); simpl; try reflexivity;
    pose proof (Pos.compare_cont_antisym mx my Eq) as H; simpl in H;
    change (PosDef.Pos.compare_cont Eq my mx) with (Pos.compare_cont Eq my mx);
    change (PosDef.Pos.compare_cont Eq mx my) with (Pos.compare_cont Eq mx my);
    rewrite <- H; destruct (Pos.compare_cont Eq mx my); reflexivity.
Qed.

Lemma not_lt_ge (a m : number) :
  is_nan a = false -> is_nan m = false -> negb (lt a m) = ge a m.
Proof.
  intros Ha Hm. unfold lt, ge, SFltb, SFleb.
  rewrite (SFcompare_antisym a m).
  destruct (SFcompare a m) as [[ | | ] | ] eqn:E; simpl; try reflexivity.
  destruct a, m; simpl in *; discriminate.
Qed.

Lemma not_gt_le (a m : number) :
  is_nan a = false -> is_nan m = false -> negb (gt a m) = le a m.
Proof.
  intros Ha Hm. unfold gt, le, SFltb, SFleb.
  rewrite (SFcompare_antisym a m).
  destruct (SFcompare a m) as [[ | | ] | ] eqn:E; simpl; try reflexivity.
  destruct a, m; simpl in *; discriminate.
Qed.

Lemma le_not_gt (a m : number) : le a m = true -> gt a m = false.
Proof.
  unfold gt, le, SFltb, SFleb.
  rewrite (SFcompare_antisym a m).
  destruct (SFcompare a m) as [[ | | ] | ]; simpl; congruence.
Qed.

Lemma negative_number (x : number) :
  lt x zero = true ->
  truthy x = true /\ gt x zero = false /\ strict_eq x zero = false.
Proof.
  destruct x as [s | s | | s m e]; try destruct s; simpl;
    try discriminate; intros _; repeat split; reflexivity.
Qed.

Lemma positive_number (x : number) :
  gt x zero = true -> truthy x = true /\ strict_eq x zero = false.
Proof.
  destruct x as [s | s | | s m e]; try destruct s; simpl;
    try discriminate; intros _; repeat split; reflexivity.
Qed.

Lemma or_zero_truthy (x : number) : truthy x = true -> or_zero (Some x) = x.
Proof. intros H. simpl. rewrite H. reflexivity. Qed.

Lemma or_zero_not_nan (n : option number) : is_nan (or_zero n) = false.
Proof. destruct n as [[ | | | ] | ]; reflexivity. Qed.

Lemma amount_not_nan (t : BankTransaction) : is_nan (amount t) = false.
Proof.
  unfold amount. destruct (deposit t) as [d | ].
  - destruct (truthy d) eqn:E.
    + destruct d; simpl in *; congruence.
    + apply or_zero_not_nan.
  - apply or_zero_not_nan.
Qed.

(** *** Facts about strings *)

Lemma includes_middle (before part after : string) :
  includes (before ++ part ++ after)%string part.
Proof. exists before, after. reflexivity. Qed.

Lemma append_assoc (a b c : string) :
  ((a ++ b) ++ c = a ++ (b ++ c))%string.
Proof. induction a as [ | ch a IH]; simpl; [ | rewrite IH]; reflexivity. Qed.

Lemma append_empty_r (a : string) : (a ++ "" = a)%string.
Proof. induction a as [ | ch a IH]; simpl; [ | rewrite IH]; reflexivity. Qed.

Lemma includes_last (before part : string) :
  includes (before ++ part)%string part.
Proof.
  exists before, ""%string. rewrite append_empty_r. reflexivity.
Qed.

Lemma includes_append_r (s part rest : string) :
  includes s part -> includes (s ++ rest)%string part.
Proof.
  intros (b & a & ->). exists b, (a ++ rest)%string.
  now rewrite !append_assoc.
Qed.

Lemma includes_append_l (s part first : string) :
  includes s part -> includes (first ++ s)%string part.
Proof.
  intros (b & a & ->). exists (first ++ b)%string, a.
  now rewrite !append_assoc.
Qed.

(** *** The loop over the lines *)

Lemma validate_line_totals (v : JournalEntryValidation) (a : JournalEntryAccount) :
  total_debit (validate_line v a)
  = (if has_account a then add (total_debit v) (debit_of a) else total_debit v)
  /\ total_credit (validate_line v a)
     = (if has_account a then add (total_credit v) (credit_of a) else total_credit v).
Proof.
  unfold validate_line, has_account, debit_of, credit_of.
  destruct (account a) as [[ | ch name] | ]; simpl; try (split; reflexivity).
  destruct (gt _ zero && gt _ zero), (strict_eq _ zero && strict_eq _ zero);
    split; reflexivity.
Qed.

Lemma fold_validate_line_totals (lines : list JournalEntryAccount) :
  forall v,
    total_debit (fold_left validate_line lines v)
    = fold_left (fun acc a => if has_account a then add acc (debit_of a) else acc)
                lines (total_debit v)
    /\ total_credit (fold_left validate_line lines v)
       = fold_left (fun acc a => if has_account a then add acc (credit_of a) else acc)
                   lines (total_credit v).
Proof.
  induction lines as [ | a rest IH]; intros v; simpl.
  - split; reflexivity.
  - destruct (IH (validate_line v a)) as [Hd Hc].
    destruct (validate_line_totals v a) as [Ed Ec].
    rewrite Hd, Hc, Ed, Ec. split; reflexivity.
Qed.

(** *** The validator *)

Lemma required_fields_totals (journalEntry : JournalEntry) :
  total_debit (check_required_fields journalEntry) = zero
  /\ total_credit (check_required_fields journalEntry) = zero
  /\ difference (check_required_fields journalEntry) = zero
  /\ warnings (check_required_fields journalEntry) = [].
Proof.
  unfold check_required_fields.
  destruct (falsy_string (posting_date journalEntry)),
           (falsy_string (company journalEntry));
    repeat split; reflexivity.
Qed.

Lemma required_fields_errors (journalEntry : JournalEntry) :
  errors (check_required_fields journalEntry)
  = (if falsy_string (posting_date journalEntry)
     then ["posting_date is required"] else [])
      ++ (if falsy_string (company journalEntry)
          then ["company is required"] else []).
Proof.
  unfold check_required_fields.
  destruct (falsy_string (posting_date journalEntry)),
           (falsy_string (company journalEntry)); reflexivity.
Qed.

Lemma two_lines_totals (lines : list JournalEntryAccount) (v : JournalEntryValidation) :
  total_debit (check_two_lines lines v) = total_debit v
  /\ total_credit (check_two_lines lines v) = total_credit v.
Proof.
  unfold check_two_lines. destruct (_ <? _)%nat; split; reflexivity.
Qed.

Lemma check_balance_totals (v : JournalEntryValidation) :
  total_debit (check_balance v) = round_to_cents (total_debit v)
  /\ total_credit (check_balance v) = round_to_cents (total_credit v)
  /\ difference (check_balance v)
     = round_to_cents (sub (round_to_cents (total_debit v))
                           (round_to_cents (total_credit v))).
Proof.
  unfold check_balance.
  destruct (gt (Math_abs (difference (round_totals v))) tolerance);
    repeat split; reflexivity.
Qed.

(** What the validator reports for a draft with at least one line. *)
Lemma validate_totals (journalEntry : JournalEntry)
      (a : JournalEntryAccount) (rest : list JournalEntryAccount) :
  accounts journalEntry = Some (a :: rest) ->
  total_debit (validateJournalEntry journalEntry) = rounded_debit (a :: rest)
  /\ total_credit (validateJournalEntry journalEntry) = rounded_credit (a :: rest)
  /\ difference (validateJournalEntry journalEntry) = rounded_difference (a :: rest).
Proof.
  intros E. unfold validateJournalEntry. rewrite E.
  destruct (check_balance_totals
              (fold_left validate_line (a :: rest)
                 (check_two_lines (a :: rest)
                    (check_required_fields journalEntry)))) as (Hd & Hc & Hdiff).
  destruct (fold_validate_line_totals (a :: rest)
              (check_two_lines (a :: rest)
                 (check_required_fields journalEntry))) as (Fd & Fc).
  destruct (two_lines_totals (a :: rest) (check_required_fields journalEntry))
    as (Td & Tc).
  destruct (required_fields_totals journalEntry) as (Rd & Rc & _).
  rewrite Hd, Hc, Hdiff, Fd, Fc, Td, Tc, Rd, Rc.
  repeat split; reflexivity.
Qed.

Lemma unbalanced_error_includes (v : JournalEntryValidation) :
  includes (unbalanced_error v) (Number_toString (total_debit v))
  /\ includes (unbalanced_error v) (Number_toString (total_credit v))
  /\ includes (unbalanced_error v) (Number_toString (difference v)).
Proof.
  unfold unbalanced_error. repeat split.
  - apply includes_middle.
  - do 2 apply includes_append_l. apply includes_middle.
  - do 4 apply includes_append_l. apply includes_last.
Qed.

(** C1: when the difference of the totals, each rounded to cents, exceeds
    0.01 in absolute value, the validation is invalid, reports those rounded
    totals and that difference, and its last error is the message built
    from the two totals and the difference. *)
Theorem unbalanced_entry_is_invalid (journalEntry : JournalEntry) :
  gt (Math_abs (rounded_difference (lines_of journalEntry))) tolerance = true ->
  is_valid (validateJournalEntry journalEntry) = false
  /\ total_debit (validateJournalEntry journalEntry)
     = rounded_debit (lines_of journalEntry)
  /\ total_credit (validateJournalEntry journalEntry)
     = rounded_credit (lines_of journalEntry)
  /\ difference (validateJournalEntry journalEntry)
     = rounded_difference (lines_of journalEntry)
  /\ (exists earlier : list string,
         errors (validateJournalEntry journalEntry)
         = earlier ++ [unbalanced_error (validateJournalEntry journalEntry)])
  /\ includes (unbalanced_error (validateJournalEntry journalEntry))
              (Number_toString (rounded_debit (lines_of journalEntry)))
  /\ includes (unbalanced_error (validateJournalEntry journalEntry))
              (Number_toString (rounded_credit (lines_of journalEntry)))
  /\ includes (unbalanced_error (validateJournalEntry journalEntry))
              (Number_toString (rounded_difference (lines_of journalEntry))).
Proof.
  intros Hgt. unfold lines_of in *.
  destruct (accounts journalEntry) as [[ | a rest] | ] eqn:E.
  - vm_compute in Hgt. discriminate.
  - destruct (validate_totals journalEntry a rest E) as (Hd & Hc & Hdiff).
    destruct (unbalanced_error_includes (validateJournalEntry journalEntry))
      as (Id & Ic & Idiff).
    rewrite Hd in Id. rewrite Hc in Ic. rewrite Hdiff in Idiff.
    rewrite <- Hdiff in Hgt.
    assert (is_valid (validateJournalEntry journalEntry) = false
            /\ exists earlier : list string,
                errors (validateJournalEntry journalEntry)
                = earlier ++ [unbalanced_error (validateJournalEntry journalEntry)])
      as (Hv & He).
    { revert Hgt. unfold validateJournalEntry. rewrite E. unfold check_balance.
      set (rounded := round_totals _).
      destruct (gt (Math_abs (difference rounded)) tolerance) eqn:G; intros Hgt.
      - split; [reflexivity | exists (errors rounded); reflexivity].
      - rewrite G in Hgt. discriminate. }
    tauto.
  - vm_compute in Hgt. discriminate.
Qed.

Lemma validate_line_well_formed (v : JournalEntryValidation) (a : JournalEntryAccount) :
  well_formed_line a = true ->
  errors (validate_line v a) = errors v
  /\ is_valid (validate_line v a) = is_valid v.
Proof.
  unfold well_formed_line, has_account, validate_line, debit_of, credit_of.
  destruct (account a) as [[ | ch name] | ]; simpl; try discriminate.
  intros H. apply negb_true_iff in H. rewrite H.
  destruct (gt _ zero && gt _ zero); split; reflexivity.
Qed.

Lemma fold_validate_line_well_formed (lines : list JournalEntryAccount) :
  forall v,
    forallb well_formed_line lines = true ->
    errors (fold_left validate_line lines v) = errors v
    /\ is_valid (fold_left validate_line lines v) = is_valid v.
Proof.
  induction lines as [ | a rest IH]; intros v H; simpl in *.
  - split; reflexivity.
  - apply andb_true_iff in H. destruct H as [Ha Hrest].
    destruct (IH (validate_line v a) Hrest) as [He Hv].
    destruct (validate_line_well_formed v a Ha) as [He' Hv'].
    rewrite He, Hv, He', Hv'. split; reflexivity.
Qed.

(** C2, amended: a draft with a posting date and a company, at least two
    lines, every line naming an account and carrying an amount, whose
    rounded difference is within 0.01, is valid and has no errors. *)
Theorem balanced_well_formed_entry_is_valid
        (journalEntry : JournalEntry) (lines : list JournalEntryAccount) :
  accounts journalEntry = Some lines ->
  falsy_string (posting_date journalEntry) = false ->
  falsy_string (company journalEntry) = false ->
  (2 <= List.length lines)%nat ->
  forallb well_formed_line lines = true ->
  le (Math_abs (rounded_difference lines)) tolerance = true ->
  is_valid (validateJournalEntry journalEntry) = true
  /\ errors (validateJournalEntry journalEntry) = [].
Proof.
  intros E Hdate Hcompany Hlen Hlines Hle.
  destruct lines as [ | a rest]; [simpl in Hlen; lia | ].
  destruct (validate_totals journalEntry a rest E) as (_ & _ & Hdiff).
  apply le_not_gt in Hle. rewrite <- Hdiff in Hle.
  revert Hle. unfold validateJournalEntry. rewrite E. unfold check_balance.
  set (header := check_two_lines (a :: rest) (check_required_fields journalEntry)).
  set (rounded := round_totals _).
  destruct (gt (Math_abs (difference rounded)) tolerance) eqn:G; intros Hle.
  - change (difference (push_error rounded (unbalanced_error rounded)))
      with (difference rounded) in Hle.
    rewrite G in Hle. discriminate.
  - destruct (fold_validate_line_well_formed (a :: rest) header Hlines)
      as [He Hv].
    assert (errors header = [] /\ is_valid header = true) as [He0 Hv0].
    { unfold header, check_two_lines, check_required_fields.
      rewrite Hdate, Hcompany.
      destruct (Nat.ltb_spec (List.length (a :: rest)) 2) as [Hlt | _];
        [lia | split; reflexivity]. }
    unfold rounded, round_totals. cbn [is_valid errors].
    rewrite He, Hv, He0, Hv0.
    split; reflexivity.
Qed.

(** C4, amended: a draft whose lines are absent or empty is invalid; its
    errors are those of a missing posting date and of a missing company,
    followed by the error that an account entry is required, which is the
    only error when both fields are present; the totals and the difference
    stay zero and there are no warnings. *)
Theorem empty_entry_is_invalid (journalEntry : JournalEntry) :
  lines_of journalEntry = [] ->
  is_valid (validateJournalEntry journalEntry) = false
  /\ errors (validateJournalEntry journalEntry)
     = (if falsy_string (posting_date journalEntry)
        then ["posting_date is required"] else [])
         ++ (if falsy_string (company journalEntry)
             then ["company is required"] else [])
         ++ ["At least one account entry is required"]
  /\ (falsy_string (posting_date journalEntry) = false ->
      falsy_string (company journalEntry) = false ->
      errors (validateJournalEntry journalEntry)
      = ["At least one account entry is required"])
  /\ total_debit (validateJournalEntry journalEntry) = zero
  /\ total_credit (validateJournalEntry journalEntry) = zero
  /\ difference (validateJournalEntry journalEntry) = zero
  /\ warnings (validateJournalEntry journalEntry) = [].
Proof.
  intros Hlines.
  assert (validateJournalEntry journalEntry
          = push_error (check_required_fields journalEntry)
                       "At least one account entry is required") as ->.
  { unfold validateJournalEntry, lines_of in *.
    destruct (accounts journalEntry) as [[ | a rest] | ];
      [reflexivity | discriminate | reflexivity]. }
  destruct (required_fields_totals journalEntry) as (Rd & Rc & Rdiff & Rw).
  pose proof (required_fields_errors journalEntry) as Re.
  simpl. rewrite Rd, Rc, Rdiff, Rw, Re.
  repeat split.
  - now rewrite <- app_assoc.
  - intros -> ->. reflexivity.
Qed.

Lemma push_error_consistent (v : JournalEntryValidation) (e : string) :
  consistent (push_error v e).
Proof.
  unfold consistent. simpl. split; [discriminate | ].
  destruct (errors v); discriminate.
Qed.

Lemma validate_line_consistent (v : JournalEntryValidation) (a : JournalEntryAccount) :
  consistent v -> consistent (validate_line v a).
Proof.
  intros Hv. unfold validate_line.
  destruct (account a) as [[ | ch name] | ];
    try apply push_error_consistent.
  destruct (gt _ zero && gt _ zero), (strict_eq _ zero && strict_eq _ zero);
    try apply push_error_consistent; exact Hv.
Qed.

Lemma fold_validate_line_consistent (lines : list JournalEntryAccount) :
  forall v, consistent v -> consistent (fold_left validate_line lines v).
Proof.
  induction lines as [ | a rest IH]; intros v Hv; simpl.
  - exact Hv.
  - apply IH, validate_line_consistent, Hv.
Qed.

Lemma validateJournalEntry_consistent (journalEntry : JournalEntry) :
  consistent (validateJournalEntry journalEntry).
Proof.
  unfold validateJournalEntry.
  destruct (accounts journalEntry) as [[ | a rest] | ];
    try apply push_error_consistent.
  unfold check_balance.
  destruct (gt _ tolerance); [apply push_error_consistent | ].
  apply (fold_validate_line_consistent (a :: rest)).
  unfold check_two_lines.
  destruct (_ <? _)%nat; [apply push_error_consistent | ].
  unfold check_required_fields.
  destruct (falsy_string (company journalEntry));
    [apply push_error_consistent | ].
  destruct (falsy_string (posting_date journalEntry));
    [apply push_error_consistent | ].
  unfold consistent. simpl. tauto.
Qed.


(** C9: a line that names an account and whose debit and credit are both
    strictly negative gets neither the both-sides warning nor the
    neither-side error: the loop only adds the two negative amounts to the
    running totals; and there is a draft made of such lines that the
    validator reports valid. *)
Theorem negative_line_is_not_flagged
        (v : JournalEntryValidation) (a : JournalEntryAccount)
        (name : string) (d c : number) :
  account a = Some name -> name <> "" ->
  debit_in_account_currency a = Some d ->
  credit_in_account_currency a = Some c ->
  lt d zero = true -> lt c zero = true ->
  validate_line v a = accumulate v d c
  /\ warnings (validate_line v a) = warnings v
  /\ errors (validate_line v a) = errors v
  /\ is_valid (validate_line v a) = is_valid v
  /\ total_debit (validate_line v a) = add (total_debit v) d
  /\ total_credit (validate_line v a) = add (total_credit v) c
  /\ (gt d zero && gt c zero = false)
  /\ (strict_eq d zero && strict_eq c zero = false)
  /\ exists (journalEntry : JournalEntry) (lines : list JournalEntryAccount),
      accounts journalEntry = Some lines
      /\ Forall (fun l => lt (debit_of l) zero = true
                          /\ lt (credit_of l) zero = true) lines
      /\ lines <> []
      /\ is_valid (validateJournalEntry journalEntry) = true.
Proof.
  intros Ha Hname Hd Hc Hdn Hcn.
  destruct (negative_number d Hdn) as (Td & Gd & Zd).
  destruct (negative_number c Hcn) as (Tc & Gc & Zc).
  assert (validate_line v a = accumulate v d c) as ->.
  { unfold validate_line. rewrite Ha.
    destruct name as [ | ch name]; [congruence | ].
    rewrite Hd, Hc, (or_zero_truthy d Td), (or_zero_truthy c Tc).
    rewrite Gd, Zd. reflexivity. }
  rewrite Gd, Zd.
  repeat match goal with |- _ /\ _ => split end; try reflexivity.
  exists negative_entry. eexists. split; [reflexivity | ].
  split; [ | split; [discriminate | vm_compute; reflexivity]].
  repeat constructor.
Qed.

(** *** Creating a journal entry *)

(** C7: with validation not skipped, a draft that the validator reports
    invalid makes [createJournalEntry] throw the validation failure, and
    the world is left exactly as it was: no request is issued and the
    remote ledger is untouched. *)
Theorem invalid_entry_is_never_sent (journalEntry : JournalEntry) (w : World Remote) :
  is_valid (validateJournalEntry journalEntry) = false ->
  createJournalEntry journalEntry false w
  = (Throw ("Failed to create journal entry: Journal entry validation failed: "
              ++ join ", " (errors (validateJournalEntry journalEntry)))%string,
     w)
  /\ requests (snd (createJournalEntry journalEntry false w)) = requests w
  /\ remote (snd (createJournalEntry journalEntry false w)) = remote w.
Proof.
  intros Hinvalid.
  assert (createJournalEntry journalEntry false w
          = (Throw ("Failed to create journal entry: Journal entry validation failed: "
                      ++ join ", " (errors (validateJournalEntry journalEntry)))%string,
             w)) as ->.
  { unfold createJournalEntry, try_catch, bind, validateJournalEntry_call, ret.
    cbn [fst snd]. rewrite Hinvalid. reflexivity. }
  repeat split; reflexivity.
Qed.

Lemma createDocument_ok (doctype : string) (doc : JournalEntry) (w : World Remote)
      (created : RemoteDoc) (ledger' : Remote) :
  remote_post_resource doctype doc (remote w) = (Ok created, ledger') ->
  createDocument doctype doc w
  = (Ok created,
     {| remote := ledger'; requests := requests w ++ [POST_resource doctype doc] |}).
Proof.
  intros H. unfold createDocument, try_catch, send. rewrite H. reflexivity.
Qed.

Lemma createJournalEntry_ok (journalEntry : JournalEntry) (skipValidation : bool)
      (w : World Remote) (created : RemoteDoc) (ledger' : Remote) :
  skipValidation = true \/ is_valid (validateJournalEntry journalEntry) = true ->
  remote_post_resource "Journal Entry" journalEntry (remote w) = (Ok created, ledger') ->
  createJournalEntry journalEntry skipValidation w
  = (Ok created,
     {| remote := ledger';
        requests := requests w ++ [POST_resource "Journal Entry" journalEntry] |}).
Proof.
  intros Hchecked Hpost.
  unfold createJournalEntry, try_catch, bind, validateJournalEntry_call, ret.
  destruct skipValidation.
  - rewrite (createDocument_ok _ _ _ _ _ Hpost). reflexivity.
  - destruct Hchecked as [Hskip | Hvalid]; [discriminate | ].
    cbn [fst snd]. rewrite Hvalid.
    rewrite (createDocument_ok _ _ _ _ _ Hpost). reflexivity.
Qed.

Lemma submitJournalEntry_fails (journalEntryName : string) (w : World Remote)
      (message : string) (ledger' : Remote) :
  remote_post_method "frappe.client.submit" "Journal Entry" journalEntryName (remote w)
  = (Throw message, ledger') ->
  submitJournalEntry journalEntryName w
  = (Throw ("Failed to submit journal entry " ++ journalEntryName
              ++ ": Failed to call method frappe.client.submit: "
              ++ message_or_unknown message)%string,
     {| remote := ledger';
        requests := requests w
                      ++ [POST_method "frappe.client.submit" "Journal Entry"
                                      journalEntryName] |}).
Proof.
  intros H. unfold submitJournalEntry, callMethod, try_catch, send, throw.
  rewrite H. reflexivity.
Qed.

(** C8: with [submit] set, when the creation request succeeds and the
    submission request is rejected, the tool answers with an error result
    whose text reads "Failed to create journal entry: ..."; the requests
    issued are the creation followed by the submission and nothing else,
    so the created entry stays in the ledger, and the success message
    naming it is not returned. *)
Theorem failed_submit_reports_failed_creation
        (args : CreateArguments) (journalEntry : JournalEntry)
        (w : World Remote) (created : RemoteDoc)
        (ledger1 ledger2 : Remote) (message : string) :
  arg_journal_entry args = Some journalEntry ->
  arg_submit args = Some true ->
  (or_false (arg_skip_validation args) = true
   \/ is_valid (validateJournalEntry journalEntry) = true) ->
  remote_post_resource "Journal Entry" journalEntry (remote w) = (Ok created, ledger1) ->
  remote_post_method "frappe.client.submit" "Journal Entry" (name created) ledger1
  = (Throw message, ledger2) ->
  create_journal_entry true args w
  = (Ok {| text := ("Failed to create journal entry: "
                      ++ "Failed to submit journal entry " ++ name created
                      ++ ": Failed to call method frappe.client.submit: "
                      ++ message_or_unknown message)%string;
           isError := true |},
     {| remote := ledger2;
        requests := requests w
                      ++ [POST_resource "Journal Entry" journalEntry;
                          POST_method "frappe.client.submit" "Journal Entry"
                                      (name created)] |}).
Proof.
  intros Hentry Hsubmit Hchecked Hcreate Hreject.
  unfold create_journal_entry. rewrite Hentry, Hsubmit.
  cbn [negb or_false].
  unfold try_catch at 1. unfold bind at 1.
  rewrite (createJournalEntry_ok _ _ _ _ _ Hchecked Hcreate).
  unfold bind at 1. unfold bind at 1.
  rewrite (submitJournalEntry_fails (name created)
             {| remote := ledger1;
                requests := requests w ++ [POST_resource "Journal Entry" journalEntry] |}
             message ledger2 Hreject).
  unfold ret. cbn [requests remote]. rewrite <- app_assoc. reflexivity.
Qed.

(** *** Searching bank transactions *)

Lemma amount_in_range_bounds (minAmount maxAmount : option number)
      (t : BankTransaction) :
  proper_bound minAmount -> proper_bound maxAmount ->
  amount_in_range minAmount maxAmount t
  = within_bounds minAmount maxAmount (amount t).
Proof.
  intros Hmin Hmax. unfold amount_in_range, within_bounds.
  pose proof (amount_not_nan t) as Ha.
  assert (match minAmount with Some m => lt (amount t) m | None => false end
          = negb match minAmount with Some m => ge (amount t) m | None => true end)
    as ->.
  { destruct minAmount as [m | ]; [ | reflexivity].
    rewrite <- (not_lt_ge _ _ Ha (Hmin m eq_refl)).
    now rewrite negb_involutive. }
  assert (match maxAmount with Some m => gt (amount t) m | None => false end
          = negb match maxAmount with Some m => le (amount t) m | None => true end)
    as ->.
  { destruct maxAmount as [m | ]; [ | reflexivity].
    rewrite <- (not_gt_le _ _ Ha (Hmax m eq_refl)).
    now rewrite negb_involutive. }
  destruct (match minAmount with Some m => ge (amount t) m | None => true end),
           (match maxAmount with Some m => le (amount t) m | None => true end);
    reflexivity.
Qed.

Lemma searchBankTransactions_ok
      (bankAccount company status fromDate toDate : option string)
      (minAmount maxAmount : option number)
      (w : World Remote) (candidates : list BankTransaction) (ledger' : Remote) :
  remote_get "Bank Transaction"
             (search_filters bankAccount company status fromDate toDate)
             bank_transaction_columns (remote w)
  = (Ok candidates, ledger') ->
  fst (searchBankTransactions bankAccount company status fromDate toDate
                              minAmount maxAmount w)
  = Ok (filter_by_amount minAmount maxAmount candidates).
Proof.
  intros H.
  unfold searchBankTransactions, getDocList, try_catch, bind, send, ret.
  rewrite H. reflexivity.
Qed.

Lemma within_bounds_zero (minAmount maxAmount : option number) (s : bool) :
  within_bounds minAmount maxAmount (S754_zero s)
  = within_bounds minAmount maxAmount zero.
Proof.
  unfold within_bounds, ge, le, SFleb.
  destruct minAmount as [[ | | | ] | ], maxAmount as [[ | | | ] | ], s; reflexivity.
Qed.

Lemma within_bounds_or_zero (minAmount maxAmount : option number) (wd : number) :
  is_nan wd = false ->
  within_bounds minAmount maxAmount (or_zero (Some wd))
  = within_bounds minAmount maxAmount wd.
Proof.
  intros Hwd. destruct wd as [s | s | | s m e].
  - symmetry. apply within_bounds_zero.
  - reflexivity.
  - discriminate.
  - reflexivity.
Qed.

(** On ordinary transactions the amount of the specification and the
    amount of the code select the same transactions. *)
Lemma spec_retains_ordinary (minAmount maxAmount : option number)
      (t : BankTransaction) :
  ordinary t = true ->
  spec_retains minAmount maxAmount t
  = within_bounds minAmount maxAmount (amount t).
Proof.
  unfold ordinary, spec_retains, spec_amount, amount.
  destruct (deposit t) as [d | ].
  - destruct (gt d zero) eqn:G.
    + intros _. destruct (positive_number d G) as [-> _]. reflexivity.
    + cbn [orb]. intros H. apply andb_true_iff in H. destruct H as [Hd Hwd].
      assert (truthy d = false) as ->.
      { revert G Hd. destruct d as [s | s | | s m e]; try destruct s;
          cbv; congruence. }
      destruct (withdrawal t) as [wd | ]; [ | discriminate].
      apply negb_true_iff in Hwd.
      rewrite (within_bounds_or_zero _ _ _ Hwd). reflexivity.
  - destruct (withdrawal t) as [wd | ]; [ | discriminate].
    intros Hwd. apply negb_true_iff in Hwd.
    rewrite (within_bounds_or_zero _ _ _ Hwd). reflexivity.
Qed.

(** C6, amended: with a minimum or a maximum given, the search returns, in
    the order of the gateway, exactly the candidates whose amount is at
    least the minimum (when given) and at most the maximum (when given),
    where the amount is [deposit] when that is a non-zero number, else
    [withdrawal] when that is a non-zero number, else 0; this selects the
    same candidates as the amount of the specification among those whose
    deposit is positive and those whose deposit is absent, zero or NaN and
    whose withdrawal is present and not NaN; for the deposit of 1500 and
    the withdrawals of 250 and 45.5 with bounds 100 and 1000, only the
    withdrawal of 250 is returned. *)
Theorem search_retains_amounts_within_bounds
        (bankAccount company status fromDate toDate : option string)
        (minAmount maxAmount : option number)
        (w : World Remote) (candidates : list BankTransaction) (ledger' : Remote) :
  remote_get "Bank Transaction"
             (search_filters bankAccount company status fromDate toDate)
             bank_transaction_columns (remote w)
  = (Ok candidates, ledger') ->
  minAmount <> None \/ maxAmount <> None ->
  proper_bound minAmount -> proper_bound maxAmount ->
  exists result : list BankTransaction,
    fst (searchBankTransactions bankAccount company status fromDate toDate
                                minAmount maxAmount w) = Ok result
    /\ result
       = filter (fun t => within_bounds minAmount maxAmount (amount t)) candidates
    /\ (forall t : BankTransaction,
           In t result
           <-> In t candidates
               /\ within_bounds minAmount maxAmount (amount t) = true)
    /\ (forall t : BankTransaction,
           ordinary t = true ->
           (In t result
            <-> In t candidates /\ spec_retains minAmount maxAmount t = true))
    /\ (candidates = [deposit_1500; withdrawal_250; withdrawal_45_50] ->
        minAmount = Some (of_Z 100) -> maxAmount = Some (of_Z 1000) ->
        result = [withdrawal_250]).
Proof.
  intros Hget Hgiven Hmin Hmax.
  exists (filter_by_amount minAmount maxAmount candidates).
  assert (filter_by_amount minAmount maxAmount candidates
          = filter (fun t => within_bounds minAmount maxAmount (amount t)) candidates)
    as Hfilter.
  { transitivity (filter (amount_in_range minAmount maxAmount) candidates).
    - unfold filter_by_amount.
      destruct minAmount, maxAmount; try reflexivity.
      destruct Hgiven; congruence.
    - apply filter_ext. intros t.
      apply amount_in_range_bounds; assumption. }
  split; [ | split; [ | split; [ | split]]].
  - apply searchBankTransactions_ok with (ledger' := ledger'). exact Hget.
  - exact Hfilter.
  - intros t. rewrite Hfilter. apply filter_In.
  - intros t Ht. rewrite Hfilter, (spec_retains_ordinary _ _ t Ht).
    apply filter_In.
  - intros -> -> ->. vm_compute. reflexivity.
Qed.

(** *** The batch orchestrator *)







(* ================================================================ *)
(** ** Further properties of the validator *)
(* ================================================================ *)

Lemma validate_line_valid (v : JournalEntryValidation) (a : JournalEntryAccount) :
  is_valid (validate_line v a) = is_valid v && well_formed_line a.
Proof.
  unfold validate_line, well_formed_line, has_account, debit_of, credit_of.
  destruct (account a) as [[ | ch name] | ]; simpl;
    try (now rewrite andb_false_r).
  destruct (gt _ zero && gt _ zero), (strict_eq _ zero && strict_eq _ zero);
    simpl; now rewrite ?andb_false_r, ?andb_true_r.
Qed.

Lemma fold_validate_line_valid (lines : list JournalEntryAccount) :
  forall v,
    is_valid (fold_left validate_line lines v)
    = is_valid v && forallb well_formed_line lines.
Proof.
  induction lines as [ | a rest IH]; intros v; simpl.
  - now rewrite andb_true_r.
  - rewrite IH, validate_line_valid. now rewrite andb_assoc.
Qed.

Lemma header_valid (journalEntry : JournalEntry) (lines : list JournalEntryAccount) :
  is_valid (check_two_lines lines (check_required_fields journalEntry))
  = negb (falsy_string (posting_date journalEntry))
    && negb (falsy_string (company journalEntry))
    && (2 <=? List.length lines)%nat.
Proof.
  unfold check_two_lines, check_required_fields.
  destruct (Nat.ltb_spec (List.length lines) 2) as [Hlt | Hge];
    destruct (Nat.leb_spec 2 (List.length lines)) as [Hle | Hgt]; try lia;
    destruct (falsy_string (posting_date journalEntry)),
             (falsy_string (company journalEntry)); reflexivity.
Qed.

Lemma is_valid_accepts (journalEntry : JournalEntry) :
  is_valid (validateJournalEntry journalEntry) = accepts journalEntry.
Proof.
  unfold accepts, lines_of.
  destruct (accounts journalEntry) as [[ | a rest] | ] eqn:E.
  - unfold validateJournalEntry. rewrite E.
    cbn [is_valid push_error List.length Nat.leb].
    now rewrite andb_false_r.
  - destruct (validate_totals journalEntry a rest E) as (_ & _ & Hdiff).
    rewrite <- Hdiff.
    unfold validateJournalEntry. rewrite E. unfold check_balance.
    set (folded := fold_left validate_line (a :: rest) _).
    assert (is_valid (round_totals folded)
            = negb (falsy_string (posting_date journalEntry))
              && negb (falsy_string (company journalEntry))
              && (2 <=? List.length (a :: rest))%nat
              && forallb well_formed_line (a :: rest)) as Hfold.
    { unfold round_totals. cbn [is_valid]. unfold folded.
      now rewrite fold_validate_line_valid, header_valid. }
    destruct (gt (Math_abs (difference (round_totals folded))) tolerance) eqn:G.
    + change (difference (push_error (round_totals folded)
                                     (unbalanced_error (round_totals folded))))
        with (difference (round_totals folded)).
      rewrite G. cbn [negb is_valid push_error]. now rewrite andb_false_r.
    + rewrite G, Hfold. cbn [negb]. now rewrite andb_true_r.
  - unfold validateJournalEntry. rewrite E.
    cbn [is_valid push_error List.length Nat.leb].
    now rewrite andb_false_r.
Qed.

(** X1: the validator accepts a draft exactly when the posting date and the
    company are present, there are at least two lines, every line names an
    account and carries an amount, and the rounded difference does not
    exceed 0.01; and it reports no error exactly in that case. *)
Theorem validation_accepts_exactly (journalEntry : JournalEntry) :
  is_valid (validateJournalEntry journalEntry) = accepts journalEntry
  /\ (errors (validateJournalEntry journalEntry) = []
      <-> accepts journalEntry = true).
Proof.
  split; [apply is_valid_accepts | ].
  rewrite <- is_valid_accepts.
  symmetry. apply validateJournalEntry_consistent.
Qed.

Lemma round_to_cents_nan : round_to_cents S754_nan = S754_nan.
Proof. reflexivity. Qed.

(** X2: the balance check lets a difference that is not a number pass: a
    draft with posting date, company and at least two well-formed lines
    whose rounded totals are both infinite is accepted, although its
    difference is NaN. *)
Theorem infinite_totals_pass_the_balance_check
        (journalEntry : JournalEntry) (lines : list JournalEntryAccount) :
  accounts journalEntry = Some lines ->
  falsy_string (posting_date journalEntry) = false ->
  falsy_string (company journalEntry) = false ->
  (2 <= List.length lines)%nat ->
  forallb well_formed_line lines = true ->
  rounded_debit lines = S754_infinity false ->
  rounded_credit lines = S754_infinity false ->
  is_valid (validateJournalEntry journalEntry) = true
  /\ errors (validateJournalEntry journalEntry) = []
  /\ difference (validateJournalEntry journalEntry) = S754_nan.
Proof.
  intros E Hdate Hcompany Hlen Hlines Hd Hc.
  assert (rounded_difference lines = S754_nan) as Hnan.
  { unfold rounded_difference. rewrite Hd, Hc. reflexivity. }
  assert (is_valid (validateJournalEntry journalEntry) = true) as Hvalid.
  { rewrite is_valid_accepts. unfold accepts, lines_of.
    rewrite E, Hdate, Hcompany, Hlines, Hnan.
    destruct (Nat.leb_spec 2 (List.length lines)); [reflexivity | lia]. }
  split; [exact Hvalid | ].
  split; [now apply validateJournalEntry_consistent | ].
  destruct lines as [ | a rest]; [simpl in Hlen; lia | ].
  destruct (validate_totals journalEntry a rest E) as (_ & _ & Hdiff).
  now rewrite Hdiff.
Qed.

Lemma errors_validate_line (v : JournalEntryValidation) (a : JournalEntryAccount) :
  exists more : list string, errors (validate_line v a) = errors v ++ more.
Proof.
  unfold validate_line.
  destruct (account a) as [[ | ch name] | ]; try (eexists; reflexivity).
  destruct (gt _ zero && gt _ zero), (strict_eq _ zero && strict_eq _ zero);
    try (eexists; reflexivity); exists []; cbn; now rewrite app_nil_r.
Qed.

Lemma errors_fold_validate_line (lines : list JournalEntryAccount) :
  forall v, exists more : list string,
      errors (fold_left validate_line lines v) = errors v ++ more.
Proof.
  induction lines as [ | a rest IH]; intros v; simpl.
  - exists []. now rewrite app_nil_r.
  - destruct (IH (validate_line v a)) as (more2 & ->).
    destruct (errors_validate_line v a) as (more1 & ->).
    exists (more1 ++ more2). now rewrite app_assoc.
Qed.

Lemma errors_check_balance (v : JournalEntryValidation) :
  exists more : list string, errors (check_balance v) = errors v ++ more.
Proof.
  unfold check_balance. destruct (gt _ tolerance).
  - eexists. reflexivity.
  - exists []. cbn. now rewrite app_nil_r.
Qed.

Lemma errors_check_two_lines (lines : list JournalEntryAccount)
      (v : JournalEntryValidation) :
  exists more : list string, errors (check_two_lines lines v) = errors v ++ more.
Proof.
  unfold check_two_lines. destruct (_ <? _)%nat.
  - eexists. reflexivity.
  - exists []. now rewrite app_nil_r.
Qed.

(** What the checks before the loop have reported stays reported. *)
Lemma reported_before_the_loop (journalEntry : JournalEntry)
      (lines : list JournalEntryAccount) (e : string) :
  accounts journalEntry = Some lines -> lines <> [] ->
  In e (errors (check_two_lines lines (check_required_fields journalEntry))) ->
  In e (errors (validateJournalEntry journalEntry)).
Proof.
  intros E Hne Hin. unfold validateJournalEntry. rewrite E.
  destruct lines as [ | a rest] eqn:El; [congruence | ]. rewrite <- El in *.
  destruct (errors_check_balance
              (fold_left validate_line lines
                 (check_two_lines lines (check_required_fields journalEntry))))
    as (m1 & ->).
  destruct (errors_fold_validate_line lines
              (check_two_lines lines (check_required_fields journalEntry)))
    as (m2 & ->).
  apply in_or_app. left. apply in_or_app. left. exact Hin.
Qed.

(** What the loop reports for one of the lines stays reported. *)
Lemma reported_by_the_loop (journalEntry : JournalEntry)
      (lines : list JournalEntryAccount) (a : JournalEntryAccount) (e : string) :
  accounts journalEntry = Some lines -> In a lines ->
  (forall v, In e (errors (validate_line v a))) ->
  In e (errors (validateJournalEntry journalEntry)).
Proof.
  intros E Ha Hin. unfold validateJournalEntry. rewrite E.
  destruct lines as [ | a0 rest] eqn:El; [contradiction | ]. rewrite <- El in *.
  destruct (errors_check_balance
              (fold_left validate_line lines
                 (check_two_lines lines (check_required_fields journalEntry))))
    as (m1 & ->).
  apply in_or_app. left.
  destruct (in_split a lines Ha) as (before & after & Hsplit).
  rewrite Hsplit at 1. rewrite fold_left_app. cbn [fold_left].
  destruct (errors_fold_validate_line after
              (validate_line
                 (fold_left validate_line before
                    (check_two_lines lines (check_required_fields journalEntry)))
                 a)) as (m2 & ->).
  apply in_or_app. left. apply Hin.
Qed.

(** X14: every check that fails leaves its message in the errors: a missing
    posting date, a missing company, an absent or empty list of lines, a
    single line, a line without account, and a named line without amount;
    and the errors about posting date and company come first. *)
Theorem every_failed_check_is_reported (journalEntry : JournalEntry) :
  (exists rest : list string,
      errors (validateJournalEntry journalEntry)
      = (if falsy_string (posting_date journalEntry)
         then ["posting_date is required"] else [])
          ++ (if falsy_string (company journalEntry)
              then ["company is required"] else [])
          ++ rest)
  /\ (lines_of journalEntry = [] ->
      In "At least one account entry is required"
         (errors (validateJournalEntry journalEntry)))
  /\ (List.length (lines_of journalEntry) = 1%nat ->
      In "Journal entry must have at least 2 account entries"
         (errors (validateJournalEntry journalEntry)))
  /\ (forall a : JournalEntryAccount,
         In a (lines_of journalEntry) -> has_account a = false ->
         In account_required_error (errors (validateJournalEntry journalEntry)))
  /\ (forall (a : JournalEntryAccount) (name : string),
         In a (lines_of journalEntry) ->
         account a = Some name -> name <> "" ->
         strict_eq (debit_of a) zero && strict_eq (credit_of a) zero = true ->
         In (neither_side_error name) (errors (validateJournalEntry journalEntry))).
Proof.
  pose proof (required_fields_errors journalEntry) as Hreq.
  assert (lines_of journalEntry = [] ->
          validateJournalEntry journalEntry
          = push_error (check_required_fields journalEntry)
                       "At least one account entry is required") as Hempty.
  { unfold validateJournalEntry, lines_of.
    destruct (accounts journalEntry) as [[ | a rest] | ];
      [reflexivity | discriminate | reflexivity]. }
  assert (forall a, In a (lines_of journalEntry) ->
                    accounts journalEntry = Some (lines_of journalEntry)) as Hsome.
  { unfold lines_of. intros a.
    destruct (accounts journalEntry); [reflexivity | contradiction]. }
  split; [ | split; [ | split; [ | split]]].
  - destruct (lines_of journalEntry) as [ | a rest] eqn:El.
    + rewrite (Hempty eq_refl). cbn [errors push_error]. rewrite Hreq.
      eexists. rewrite <- app_assoc. reflexivity.
    + assert (accounts journalEntry = Some (a :: rest)) as E.
      { apply (Hsome a). left. reflexivity. }
      unfold validateJournalEntry. rewrite E.
      destruct (errors_check_balance
                  (fold_left validate_line (a :: rest)
                     (check_two_lines (a :: rest)
                        (check_required_fields journalEntry)))) as (m1 & ->).
      destruct (errors_fold_validate_line (a :: rest)
                  (check_two_lines (a :: rest)
                     (check_required_fields journalEntry))) as (m2 & ->).
      destruct (errors_check_two_lines (a :: rest)
                  (check_required_fields journalEntry)) as (m3 & ->).
      rewrite Hreq. exists (m3 ++ m2 ++ m1). now rewrite <- !app_assoc.
  - intros El. rewrite (Hempty El). cbn [errors push_error].
    apply in_or_app. right. left. reflexivity.
  - intros Hlen.
    destruct (lines_of journalEntry) as [ | a [ | b rest]] eqn:El;
      try discriminate.
    assert (accounts journalEntry = Some [a]) as E.
    { apply (Hsome a). left. reflexivity. }
    apply (reported_before_the_loop journalEntry [a]);
      [exact E | discriminate | ].
    unfold check_two_lines. cbn [List.length Nat.ltb Nat.leb errors push_error].
    apply in_or_app. right. left. reflexivity.
  - intros a Ha Hno.
    apply (reported_by_the_loop journalEntry (lines_of journalEntry) a);
      [exact (Hsome a Ha) | exact Ha | ].
    intros v. unfold validate_line.
    unfold has_account in Hno. apply negb_false_iff in Hno.
    destruct (account a) as [[ | ch name] | ]; try discriminate;
      cbn [errors push_error]; apply in_or_app; right; left; reflexivity.
  - intros a name Ha Hname Hne Hzero.
    apply (reported_by_the_loop journalEntry (lines_of journalEntry) a);
      [exact (Hsome a Ha) | exact Ha | ].
    intros v. unfold validate_line. rewrite Hname.
    destruct name as [ | ch name]; [congruence | ].
    fold (debit_of a). fold (credit_of a). rewrite Hzero.
    cbn [errors push_error]. apply in_or_app. right. left. reflexivity.
Qed.

(* ================================================================ *)
(** ** Generated entries *)
(* ================================================================ *)

Lemma falsy_string_some (s : string) : s <> "" -> falsy_string (Some s) = false.
Proof. destruct s; [congruence | reflexivity]. Qed.

Lemma truthy_not_zero (x : number) : truthy x = true -> strict_eq x zero = false.
Proof.
  destruct x as [s | s | | s m e]; try destruct s; cbv; congruence.
Qed.

Lemma add_zero_l (x : number) : truthy x = true -> add zero x = x.
Proof. destruct x; simpl; try discriminate; reflexivity. Qed.

Lemma add_zero_r (x : number) : truthy x = true -> add x zero = x.
Proof. destruct x; simpl; try discriminate; reflexivity. Qed.

Lemma sub_diag_balanced (x : number) :
  gt (Math_abs (round_to_cents (sub x x))) tolerance = false.
Proof.
  destruct x as [s | s | | s m e]; try (destruct s; reflexivity);
    try reflexivity.
  unfold sub, SFsub. cbv zeta. rewrite Z.sub_diag. reflexivity.
Qed.

Lemma generated_line_well_formed (name : string) (debit credit : number)
      (description : string) :
  name <> "" -> truthy debit = true \/ truthy credit = true ->
  well_formed_line (generated_line name debit credit description) = true.
Proof.
  intros Hname Hamount.
  unfold well_formed_line, has_account, debit_of, credit_of. cbn [generated_line
    account debit_in_account_currency credit_in_account_currency].
  rewrite (falsy_string_some name Hname). cbn [negb andb].
  apply negb_true_iff, andb_false_iff.
  destruct Hamount as [H | H]; [left | right];
    rewrite (or_zero_truthy _ H); apply truthy_not_zero, H.
Qed.

Lemma generated_totals (transactionType : TransactionType) (amount : number)
      (incomeOrExpenseAccount bankAccount date companyName description : string) :
  incomeOrExpenseAccount <> "" -> bankAccount <> "" -> truthy amount = true ->
  debit_sum (lines_of (createJournalEntryForTransaction
                         transactionType amount incomeOrExpenseAccount
                         bankAccount date companyName description)) = amount
  /\ credit_sum (lines_of (createJournalEntryForTransaction
                             transactionType amount incomeOrExpenseAccount
                             bankAccount date companyName description)) = amount.
Proof.
  intros Haccount Hbank Hamount.
  unfold debit_sum, credit_sum, lines_of, has_account, debit_of, credit_of.
  destruct transactionType;
    cbn [createJournalEntryForTransaction accounts fold_left generated_line
         account debit_in_account_currency credit_in_account_currency];
    rewrite (falsy_string_some _ Haccount), (falsy_string_some _ Hbank);
    cbn [negb]; rewrite (or_zero_truthy _ Hamount);
    change (or_zero (Some zero)) with zero;
    change (add zero zero) with zero;
    rewrite (add_zero_l _ Hamount), ?(add_zero_r _ Hamount); split; reflexivity.
Qed.

(** X3: an entry generated for an income or an expense with an amount that
    is a non-zero number, between two named accounts, with a date and a
    company, is accepted by the validator without errors, and its reported
    debit and credit totals are both the amount rounded to cents. *)
Theorem generated_entry_is_valid
        (transactionType : TransactionType) (amount : number)
        (incomeOrExpenseAccount bankAccount date companyName description : string) :
  truthy amount = true ->
  incomeOrExpenseAccount <> "" -> bankAccount <> "" ->
  date <> "" -> companyName <> "" ->
  is_valid (validateJournalEntry
              (createJournalEntryForTransaction
                 transactionType amount incomeOrExpenseAccount bankAccount
                 date companyName description)) = true
  /\ errors (validateJournalEntry
               (createJournalEntryForTransaction
                  transactionType amount incomeOrExpenseAccount bankAccount
                  date companyName description)) = []
  /\ total_debit (validateJournalEntry
                    (createJournalEntryForTransaction
                       transactionType amount incomeOrExpenseAccount bankAccount
                       date companyName description)) = round_to_cents amount
  /\ total_credit (validateJournalEntry
                     (createJournalEntryForTransaction
                        transactionType amount incomeOrExpenseAccount bankAccount
                        date companyName description)) = round_to_cents amount.
Proof.
  intros Hamount Haccount Hbank Hdate Hcompany.
  set (entry := createJournalEntryForTransaction _ _ _ _ _ _ _).
  destruct (generated_totals transactionType amount incomeOrExpenseAccount
              bankAccount date companyName description Haccount Hbank Hamount)
    as [Hd Hc].
  fold entry in Hd, Hc.
  assert (exists a rest, accounts entry = Some (a :: rest)
                         /\ lines_of entry = a :: rest) as (a & rest & E & El).
  { unfold entry. destruct transactionType; eexists; eexists; split; reflexivity. }
  assert (is_valid (validateJournalEntry entry) = true) as Hvalid.
  { rewrite is_valid_accepts. unfold accepts.
    unfold rounded_difference, rounded_debit, rounded_credit.
    rewrite Hd, Hc, sub_diag_balanced.
    assert (forallb well_formed_line (lines_of entry) = true) as ->.
    { unfold entry, lines_of.
      destruct transactionType;
        cbn [createJournalEntryForTransaction accounts forallb];
        rewrite !generated_line_well_formed; auto. }
    unfold entry.
    cbn [createJournalEntryForTransaction posting_date company].
    rewrite (falsy_string_some _ Hdate), (falsy_string_some _ Hcompany).
    destruct transactionType; reflexivity. }
  destruct (validate_totals entry a rest E) as (Td & Tc & _).
  rewrite <- El in Td, Tc. unfold rounded_debit, rounded_credit in Td, Tc.
  rewrite Hd in Td. rewrite Hc in Tc.
  split; [exact Hvalid | ].
  split; [now apply validateJournalEntry_consistent | ].
  split; assumption.
Qed.

(** X4: an entry generated with an amount of zero or NaN is rejected, with
    exactly the two errors that its lines have neither debit nor credit. *)
Theorem generated_entry_without_amount_is_invalid
        (transactionType : TransactionType) (amount : number)
        (incomeOrExpenseAccount bankAccount date companyName description : string) :
  truthy amount = false ->
  incomeOrExpenseAccount <> "" -> bankAccount <> "" ->
  date <> "" -> companyName <> "" ->
  is_valid (validateJournalEntry
              (createJournalEntryForTransaction
                 transactionType amount incomeOrExpenseAccount bankAccount
                 date companyName description)) = false
  /\ errors (validateJournalEntry
               (createJournalEntryForTransaction
                  transactionType amount incomeOrExpenseAccount bankAccount
                  date companyName description))
     = match transactionType with
       | income => [neither_side_error bankAccount;
                    neither_side_error incomeOrExpenseAccount]
       | expense => [neither_side_error incomeOrExpenseAccount;
                     neither_side_error bankAccount]
       end.
Proof.
  intros Hamount Haccount Hbank Hdate Hcompany.
  destruct incomeOrExpenseAccount as [ | c1 account1]; [congruence | ].
  destruct bankAccount as [ | c2 account2]; [congruence | ].
  destruct date as [ | c3 date]; [congruence | ].
  destruct companyName as [ | c4 companyName]; [congruence | ].
  destruct amount as [s | s | | s m e]; try discriminate;
    destruct transactionType; split; reflexivity.
Qed.

(* ================================================================ *)
(** ** Amounts read from bank statements *)
(* ================================================================ *)

Lemma abs_not_negative (x : number) : lt (Math_abs x) zero = false.
Proof. destruct x as [s | s | | s m e]; reflexivity. Qed.

Lemma abs_nan (x : number) : is_nan (Math_abs x) = is_nan x.
Proof. destruct x; reflexivity. Qed.

Lemma not_ge_zero_abs (x : number) :
  is_nan x = false -> ge x zero = false -> truthy (Math_abs x) = true.
Proof.
  destruct x as [s | s | | s m e]; try destruct s; cbv; congruence.
Qed.

Lemma ge_zero_abs (x : number) :
  ge x zero = true ->
  (truthy (Math_abs x) = true \/ Math_abs x = zero).
Proof.
  destruct x as [s | s | | s m e]; try destruct s; cbv; auto; discriminate.
Qed.

(** X5: whatever the input, [categorizeAmount] puts an amount on one side
    only and never a negative one; and for an input that is a number, a
    bank transaction carrying the two sides has, in the search, the
    absolute value of the input as its amount. *)
Theorem categorized_amount_is_one_sided (input : AmountInput) :
  (categorized_deposit (categorizeAmount input) = zero
   \/ categorized_withdrawal (categorizeAmount input) = zero)
  /\ lt (categorized_deposit (categorizeAmount input)) zero = false
  /\ lt (categorized_withdrawal (categorizeAmount input)) zero = false
  /\ (forall t : BankTransaction,
         is_nan (numeric_amount input) = false ->
         deposit t = Some (categorized_deposit (categorizeAmount input)) ->
         withdrawal t = Some (categorized_withdrawal (categorizeAmount input)) ->
         amount t = Math_abs (numeric_amount input)).
Proof.
  unfold categorizeAmount.
  destruct (ge (numeric_amount input) zero) eqn:G;
    cbn [categorized_deposit categorized_withdrawal].
  - split; [right; reflexivity | ].
    split; [apply abs_not_negative | ].
    split; [reflexivity | ].
    intros t _ Hd Hw. unfold amount. rewrite Hd, Hw.
    destruct (ge_zero_abs _ G) as [H | H].
    + now rewrite H.
    + rewrite H. reflexivity.
  - split; [left; reflexivity | ].
    split; [reflexivity | ].
    split; [apply abs_not_negative | ].
    intros t Hnan Hd Hw. unfold amount. rewrite Hd, Hw.
    cbn [truthy zero]. apply or_zero_truthy, not_ge_zero_abs; assumption.
Qed.

(** X6: for a text, [parseAmount] either returns a number that is neither
    NaN nor negative, the absolute value of what [parseFloat] reads in the
    cleaned text, or throws an error quoting the original text; for a
    number it returns the absolute value without any check; and whenever it
    returns an amount, [categorizeAmount] puts exactly that amount on one
    side and zero on the other. *)
Theorem parsed_amount_is_a_magnitude (input : AmountInput) :
  (forall s : string,
      input = AmountString s ->
      (is_nan (parseFloat (strip_currency s)) = true
       /\ parseAmount input = Throw ("Invalid amount format: " ++ s)%string)
      \/ (is_nan (parseFloat (strip_currency s)) = false
          /\ parseAmount input = Ok (Math_abs (parseFloat (strip_currency s)))))
  /\ (forall n : number, input = AmountNumber n -> parseAmount input = Ok (Math_abs n))
  /\ (forall a : number,
         parseAmount input = Ok a ->
         lt a zero = false
         /\ (categorizeAmount input
             = {| categorized_deposit := a; categorized_withdrawal := zero |}
             \/ categorizeAmount input
                = {| categorized_deposit := zero; categorized_withdrawal := a |})).
Proof.
  split; [ | split].
  - intros s ->. unfold parseAmount.
    destruct (is_nan (parseFloat (strip_currency s))); [left | right];
      split; reflexivity.
  - intros n ->. reflexivity.
  - intros a Ha.
    assert (a = Math_abs (numeric_amount input)) as ->.
    { destruct input as [n | s]; cbn [parseAmount numeric_amount] in *.
      - now injection Ha.
      - destruct (is_nan (parseFloat (strip_currency s))); [discriminate | ].
        now injection Ha. }
    split; [apply abs_not_negative | ].
    unfold categorizeAmount.
    destruct (ge (numeric_amount input) zero); [left | right]; reflexivity.
Qed.

Lemma strip_currency_noise (before after : string) (c : ascii) :
  is_currency_noise c = true ->
  strip_currency (before ++ String c after) = strip_currency (before ++ after).
Proof.
  intros Hc. induction before as [ | b before IH]; simpl.
  - now rewrite Hc.
  - now rewrite IH.
Qed.

(** X7: a dollar sign, a comma or a white-space character anywhere in the
    text changes neither the sides computed by [categorizeAmount] nor the
    amount returned by [parseAmount], which throws on the one text exactly
    when it throws on the other. *)
Theorem currency_noise_is_ignored (before after : string) (c : ascii) :
  is_currency_noise c = true ->
  categorizeAmount (AmountString (before ++ String c after))
  = categorizeAmount (AmountString (before ++ after))
  /\ (forall a : number,
         parseAmount (AmountString (before ++ String c after)) = Ok a
         <-> parseAmount (AmountString (before ++ after)) = Ok a).
Proof.
  intros Hc.
  pose proof (strip_currency_noise before after c Hc) as Hstrip.
  split.
  - unfold categorizeAmount, numeric_amount. now rewrite Hstrip.
  - intros a. unfold parseAmount. rewrite Hstrip.
    destruct (is_nan (parseFloat (strip_currency (before ++ after))));
      split; intros H; try discriminate; exact H.
Qed.

(* ================================================================ *)
(** ** Requests issued by the client and the tools *)
(* ================================================================ *)

Lemma createDocument_rejected (doctype : string) (doc : JournalEntry)
      (w : World Remote) (message : string) (ledger' : Remote) :
  remote_post_resource doctype doc (remote w) = (Throw message, ledger') ->
  createDocument doctype doc w
  = (Throw ("Failed to create " ++ doctype ++ ": " ++ message_or_unknown message)%string,
     {| remote := ledger'; requests := requests w ++ [POST_resource doctype doc] |}).
Proof.
  intros H. unfold createDocument, try_catch, send, throw. rewrite H. reflexivity.
Qed.

Lemma createJournalEntry_rejected (journalEntry : JournalEntry) (skipValidation : bool)
      (w : World Remote) (message : string) (ledger' : Remote) :
  skipValidation = true \/ is_valid (validateJournalEntry journalEntry) = true ->
  remote_post_resource "Journal Entry" journalEntry (remote w) = (Throw message, ledger') ->
  createJournalEntry journalEntry skipValidation w
  = (Throw ("Failed to create journal entry: Failed to create Journal Entry: "
              ++ message_or_unknown message)%string,
     {| remote := ledger';
        requests := requests w ++ [POST_resource "Journal Entry" journalEntry] |}).
Proof.
  intros Hchecked Hpost.
  unfold createJournalEntry, try_catch, bind, validateJournalEntry_call, ret.
  destruct skipValidation.
  - rewrite (createDocument_rejected _ _ _ _ _ Hpost). reflexivity.
  - destruct Hchecked as [Hskip | Hvalid]; [discriminate | ].
    cbn [fst snd]. rewrite Hvalid.
    rewrite (createDocument_rejected _ _ _ _ _ Hpost). reflexivity.
Qed.

Lemma createJournalEntry_refused (journalEntry : JournalEntry) (w : World Remote) :
  is_valid (validateJournalEntry journalEntry) = false ->
  createJournalEntry journalEntry false w
  = (Throw ("Failed to create journal entry: Journal entry validation failed: "
              ++ join ", " (errors (validateJournalEntry journalEntry)))%string,
     w).
Proof.
  intros Hinvalid.
  unfold createJournalEntry, try_catch, bind, validateJournalEntry_call, ret.
  cbn [fst snd]. rewrite Hinvalid. reflexivity.
Qed.

Lemma submitJournalEntry_ok (journalEntryName : string) (w : World Remote)
      (answer : RemoteDoc) (ledger' : Remote) :
  remote_post_method "frappe.client.submit" "Journal Entry" journalEntryName (remote w)
  = (Ok answer, ledger') ->
  submitJournalEntry journalEntryName w
  = (Ok answer,
     {| remote := ledger';
        requests := requests w
                      ++ [POST_method "frappe.client.submit" "Journal Entry"
                                      journalEntryName] |}).
Proof.
  intros H. unfold submitJournalEntry, callMethod, try_catch, send.
  rewrite H. reflexivity.
Qed.

(** X8: when validation is skipped or passes, [createJournalEntry] issues
    exactly one request, the creation of the caller's draft as it is, and
    its outcome is that of the ledger: the created document, or the
    ledger's message behind the prefixes of the two methods. *)
Theorem createJournalEntry_posts_once
        (journalEntry : JournalEntry) (skipValidation : bool) (w : World Remote) :
  skipValidation = true \/ is_valid (validateJournalEntry journalEntry) = true ->
  requests (snd (createJournalEntry journalEntry skipValidation w))
  = requests w ++ [POST_resource "Journal Entry" journalEntry]
  /\ remote (snd (createJournalEntry journalEntry skipValidation w))
     = snd (remote_post_resource "Journal Entry" journalEntry (remote w))
  /\ fst (createJournalEntry journalEntry skipValidation w)
     = match fst (remote_post_resource "Journal Entry" journalEntry (remote w)) with
       | Ok created => Ok created
       | Throw message =>
           Throw ("Failed to create journal entry: Failed to create Journal Entry: "
                    ++ message_or_unknown message)%string
       end.
Proof.
  intros Hchecked.
  destruct (remote_post_resource "Journal Entry" journalEntry (remote w))
    as [[created | message] ledger'] eqn:Hpost.
  - rewrite (createJournalEntry_ok _ _ _ _ _ Hchecked Hpost).
    repeat split; reflexivity.
  - rewrite (createJournalEntry_rejected _ _ _ _ _ Hchecked Hpost).
    repeat split; reflexivity.
Qed.

(** X9: given a journal entry, the [create_journal_entry] tool always
    answers and never throws; it issues no request, or the creation alone,
    or the creation followed by the submission of the created document,
    the latter only when [submit] is set and the creation succeeded; and an
    answer that is not an error means that the ledger accepted the creation
    and, when [submit] is set, the submission. *)
Theorem create_tool_request_discipline
        (args : CreateArguments) (journalEntry : JournalEntry) (w : World Remote) :
  arg_journal_entry args = Some journalEntry ->
  exists (answer : ToolResult) (w' : World Remote),
    create_journal_entry true args w = (Ok answer, w')
    /\ (requests w' = requests w /\ remote w' = remote w /\ isError answer = true
        \/ requests w' = requests w ++ [POST_resource "Journal Entry" journalEntry]
        \/ exists (created : RemoteDoc) (ledger1 : Remote),
            remote_post_resource "Journal Entry" journalEntry (remote w)
            = (Ok created, ledger1)
            /\ or_false (arg_submit args) = true
            /\ requests w'
               = requests w
                   ++ [POST_resource "Journal Entry" journalEntry;
                       POST_method "frappe.client.submit" "Journal Entry"
                                   (name created)])
    /\ (isError answer = false ->
        exists (created : RemoteDoc) (ledger1 : Remote),
          remote_post_resource "Journal Entry" journalEntry (remote w)
          = (Ok created, ledger1)
          /\ (or_false (arg_submit args) = false -> remote w' = ledger1)
          /\ (or_false (arg_submit args) = true ->
              exists submitted : RemoteDoc,
                remote_post_method "frappe.client.submit" "Journal Entry"
                                   (name created) ledger1
                = (Ok submitted, remote w'))).
Proof.
  intros Hentry. unfold create_journal_entry. rewrite Hentry. cbn [negb].
  set (skip := or_false (arg_skip_validation args)).
  set (submit := or_false (arg_submit args)).
  unfold try_catch at 1. unfold bind at 1.
  assert (skip = false /\ is_valid (validateJournalEntry journalEntry) = false
          \/ (skip = true \/ is_valid (validateJournalEntry journalEntry) = true))
    as [[Hskip Hvalid] | Hchecked].
  { destruct skip, (is_valid (validateJournalEntry journalEntry)); auto. }
  { rewrite Hskip, (createJournalEntry_refused _ w Hvalid). unfold ret.
    eexists. eexists. split; [reflexivity | ]. split.
    - left. repeat split; reflexivity.
    - cbn [isError]. discriminate. }
  all: destruct (remote_post_resource "Journal Entry" journalEntry (remote w))
      as [[created | message] ledger1] eqn:Hpost;
    [ rewrite (createJournalEntry_ok _ _ _ _ _ Hchecked Hpost)
    | rewrite (createJournalEntry_rejected _ _ _ _ _ Hchecked Hpost); unfold ret;
      eexists; eexists; split; [reflexivity | ]; split;
      [ right; left; reflexivity | cbn [isError]; discriminate ] ].
  all: unfold bind at 1; destruct submit eqn:Hsubmit.
  all: try (unfold ret; eexists; eexists; split; [reflexivity | ]; split;
            [ right; left; reflexivity
            | intros _; exists created, ledger1; split; [reflexivity | ];
              split; [reflexivity | discriminate] ]).
  all: unfold bind at 1;
    destruct (remote_post_method "frappe.client.submit" "Journal Entry"
                                 (name created) ledger1)
      as [[submitted | message] ledger2] eqn:Hmethod;
    [ rewrite (submitJournalEntry_ok (name created)
                 {| remote := ledger1;
                    requests := requests w
                                  ++ [POST_resource "Journal Entry" journalEntry] |}
                 submitted ledger2 Hmethod)
    | rewrite (submitJournalEntry_fails (name created)
                 {| remote := ledger1;
                    requests := requests w
                                  ++ [POST_resource "Journal Entry" journalEntry] |}
                 message ledger2 Hmethod) ];
    unfold ret; cbn [requests remote]; rewrite <- app_assoc;
    eexists; eexists; (split; [reflexivity | ]); split;
    try (right; right; exists created, ledger1; repeat split; reflexivity);
    cbn [isError remote]; try discriminate;
    intros _; exists created, ledger1; split; [reflexivity | ];
    split; [discriminate | intros _; exists submitted; exact Hmethod].
Qed.

(** X12: a search issues exactly one request, the listing of bank
    transactions with the filters built from its arguments; when the ledger
    answers, the result is the ledger's list filtered by amount, so every
    result is one of the ledger's transactions, in the ledger's order, and
    without bounds the list is returned whole; when the ledger rejects the
    request, the search throws the ledger's message behind the prefixes of
    the two methods. *)
Theorem search_lists_once
        (bankAccount company_name status fromDate toDate : option string)
        (minAmount maxAmount : option number) (w : World Remote) :
  snd (searchBankTransactions bankAccount company_name status fromDate toDate
                              minAmount maxAmount w)
  = {| remote := snd (remote_get "Bank Transaction"
                        (search_filters bankAccount company_name status fromDate toDate)
                        bank_transaction_columns (remote w));
       requests := requests w
                     ++ [GET_resource "Bank Transaction"
                           (search_filters bankAccount company_name status
                                           fromDate toDate)
                           bank_transaction_columns] |}
  /\ match fst (remote_get "Bank Transaction"
                  (search_filters bankAccount company_name status fromDate toDate)
                  bank_transaction_columns (remote w)) with
     | Ok candidates =>
         exists result : list BankTransaction,
           fst (searchBankTransactions bankAccount company_name status fromDate
                                       toDate minAmount maxAmount w) = Ok result
           /\ result = filter (amount_in_range minAmount maxAmount) candidates
           /\ incl result candidates
           /\ (List.length result <= List.length candidates)%nat
           /\ (minAmount = None -> maxAmount = None -> result = candidates)
     | Throw message =>
         fst (searchBankTransactions bankAccount company_name status fromDate
                                     toDate minAmount maxAmount w)
         = Throw ("Failed to search bank transactions: "
                    ++ "Failed to get Bank Transaction list: "
                    ++ message_or_unknown message)%string
     end.
Proof.
  unfold searchBankTransactions, getDocList, try_catch, bind, send, ret, throw.
  destruct (remote_get "Bank Transaction"
              (search_filters bankAccount company_name status fromDate toDate)
              bank_transaction_columns (remote w))
    as [[candidates | message] ledger'].
  - split; [reflexivity | ]. cbn [fst].
    assert (filter_by_amount minAmount maxAmount candidates
            = filter (amount_in_range minAmount maxAmount) candidates) as Hfilter.
    { unfold filter_by_amount. destruct minAmount, maxAmount; try reflexivity.
      symmetry. apply forallb_filter_id.
      apply forallb_forall. intros t _. reflexivity. }
    exists (filter_by_amount minAmount maxAmount candidates).
    split; [reflexivity | ]. split; [exact Hfilter | ].
    rewrite Hfilter. split; [apply incl_filter | ].
    split; [apply filter_length_le | ].
    intros -> ->. apply forallb_filter_id.
    apply forallb_forall. intros t _. reflexivity.
  - split; reflexivity.
Qed.

(** X13: when authenticated, the [search_bank_transactions] tool always
    answers and never throws; it issues exactly one request; its answer is
    an error answer exactly when the ledger rejects the request, and then
    carries the ledger's message. *)
Theorem search_tool_always_answers (args : SearchArguments) (w : World Remote) :
  exists (answer : ToolResult) (w' : World Remote),
    search_bank_transactions true args w = (Ok answer, w')
    /\ requests w'
       = requests w
           ++ [GET_resource "Bank Transaction"
                 (search_filters (arg_bank_account args) (arg_company args)
                                 (arg_status args) (arg_from_date args)
                                 (arg_to_date args))
                 bank_transaction_columns]
    /\ match fst (remote_get "Bank Transaction"
                    (search_filters (arg_bank_account args) (arg_company args)
                                    (arg_status args) (arg_from_date args)
                                    (arg_to_date args))
                    bank_transaction_columns (remote w)) with
       | Ok candidates =>
           answer
           = {| text := JSON_stringify_transactions
                          (filter_by_amount (arg_min_amount args)
                                            (arg_max_amount args) candidates);
                isError := false |}
       | Throw message =>
           answer
           = {| text := ("Failed to search bank transactions: "
                           ++ "Failed to search bank transactions: "
                           ++ "Failed to get Bank Transaction list: "
                           ++ message_or_unknown message)%string;
                isError := true |}
       end.
Proof.
  unfold search_bank_transactions, searchBankTransactions, getDocList,
    try_catch, bind, send, ret, throw.
  cbn [negb].
  destruct (remote_get "Bank Transaction"
              (search_filters (arg_bank_account args) (arg_company args)
                              (arg_status args) (arg_from_date args)
                              (arg_to_date args))
              bank_transaction_columns (remote w))
    as [[candidates | message] ledger'];
    eexists; eexists; split; try reflexivity; split; reflexivity.
Qed.

(* ================================================================ *)
(** ** The validator on the heap *)
(* ================================================================ *)

Lemma and_then_ok {A B : Type} (p : P A) (k : A -> P B)
      (m m' : Machine) (a : A) :
  p m = (Ok a, m') -> and_then p k m = k a m'.
Proof. intros H. unfold and_then. now rewrite H. Qed.

Lemma nth_error_built_before (h : list Object) (x o : Object) (l : nat) :
  nth_error h l = Some o -> nth_error (h ++ [x]) l = Some o.
Proof.
  intros H. rewrite nth_error_app1; [exact H | ].
  apply nth_error_Some. congruence.
Qed.

Lemma nth_error_built_last (h : list Object) (x : Object) :
  nth_error (h ++ [x]) (List.length h) = Some x.
Proof.
  rewrite nth_error_app2 by lia. now rewrite Nat.sub_diag.
Qed.

Lemma replace_at_last (h : list Object) (x o : Object) :
  replace_at (List.length h) o (h ++ [x]) = h ++ [o].
Proof.
  induction h as [ | y h IH]; simpl; [reflexivity | now rewrite IH].
Qed.

Lemma get_field_built {A : Type} (h : list Object) (v : JournalEntryValidation)
      (w : World Remote) (j : nat) (je : JournalEntry) (field : JournalEntry -> A) :
  nth_error h j = Some (ObjDraft je) ->
  get_field j field (built h v w) = (Ok (field je), built h v w).
Proof.
  intros H. unfold get_field, built. cbn [heap].
  now rewrite (nth_error_built_before _ _ _ _ H).
Qed.

Lemma get_lines_built (h : list Object) (v : JournalEntryValidation)
      (w : World Remote) (j : nat) (je : JournalEntry)
      (lines : list JournalEntryAccount) :
  nth_error h j = Some (ObjDraft je) -> accounts je = Some lines ->
  get_lines j (built h v w) = (Ok lines, built h v w).
Proof.
  intros H E. unfold get_lines.
  rewrite (and_then_ok _ _ _ _ _ (get_field_built h v w j je accounts H)).
  now rewrite E.
Qed.

Lemma get_validation_built (h : list Object) (v : JournalEntryValidation)
      (w : World Remote) :
  get_validation (List.length h) (built h v w) = (Ok v, built h v w).
Proof.
  unfold get_validation, built. cbn [heap].
  now rewrite nth_error_built_last.
Qed.

Lemma update_validation_built (h : list Object) (v : JournalEntryValidation)
      (w : World Remote) (f : JournalEntryValidation -> JournalEntryValidation) :
  update_validation (List.length h) f (built h v w) = (Ok tt, built h (f v) w).
Proof.
  unfold update_validation.
  rewrite (and_then_ok _ _ _ _ _ (get_validation_built h v w)).
  unfold built. cbn [heap net]. now rewrite replace_at_last.
Qed.

Lemma report_built (h : list Object) (v : JournalEntryValidation)
      (w : World Remote) (e : string) :
  report (List.length h) e (built h v w) = (Ok tt, built h (push_error v e) w).
Proof.
  unfold report, errors_push, set_is_valid.
  rewrite (and_then_ok _ _ _ _ _ (update_validation_built h v w _)).
  rewrite update_validation_built. reflexivity.
Qed.

Lemma when_report_built (h : list Object) (v : JournalEntryValidation)
      (w : World Remote) (c : bool) (e : string) :
  when c (report (List.length h) e) (built h v w)
  = (Ok tt, built h (if c then push_error v e else v) w).
Proof. destruct c; [apply report_built | reflexivity]. Qed.

Lemma line_statements_built (h : list Object) (v : JournalEntryValidation)
      (w : World Remote) (a : JournalEntryAccount) :
  line_statements (List.length h) a (built h v w)
  = (Ok tt, built h (validate_line v a) w).
Proof.
  unfold line_statements, validate_line.
  destruct (account a) as [[ | ch name] | ]; try apply report_built.
  unfold set_total_debit, set_total_credit, warnings_push.
  rewrite (and_then_ok _ _ _ _ _ (update_validation_built h v w _)).
  rewrite (and_then_ok _ _ _ _ _ (update_validation_built h _ w _)).
  destruct (gt _ zero && gt _ zero); cbn [when].
  - rewrite (and_then_ok _ _ _ _ _ (update_validation_built h _ w _)).
    rewrite when_report_built.
    destruct (strict_eq _ zero && strict_eq _ zero); reflexivity.
  - unfold and_then at 1, pure at 1.
    rewrite when_report_built.
    destruct (strict_eq _ zero && strict_eq _ zero); reflexivity.
Qed.

Lemma for_each_built (h : list Object) (w : World Remote)
      (lines : list JournalEntryAccount) :
  forall v,
    for_each lines (line_statements (List.length h)) (built h v w)
    = (Ok tt, built h (fold_left validate_line lines v) w).
Proof.
  induction lines as [ | a rest IH]; intros v; cbn [for_each fold_left].
  - reflexivity.
  - rewrite (and_then_ok _ _ _ _ _ (line_statements_built h v w a)).
    apply IH.
Qed.

(** The program builds, on top of the objects it finds, exactly the
    validation computed by [validateJournalEntry], and returns a reference
    to it. *)
Lemma validateJournalEntry_program_built (h : list Object) (w : World Remote)
      (j : nat) (je : JournalEntry) :
  nth_error h j = Some (ObjDraft je) ->
  validateJournalEntry_program j {| heap := h; net := w |}
  = (Ok (List.length h), built h (validateJournalEntry je) w).
Proof.
  intros Hj. unfold validateJournalEntry_program.
  unfold and_then at 1, new_object at 1. cbn [heap net].
  fold (built h initial_validation w).
  rewrite (and_then_ok _ _ _ _ _ (get_field_built h _ w j je posting_date Hj)).
  rewrite (and_then_ok _ _ _ _ _ (when_report_built h _ w _ _)).
  rewrite (and_then_ok _ _ _ _ _ (get_field_built h _ w j je company Hj)).
  rewrite (and_then_ok _ _ _ _ _ (when_report_built h _ w _ _)).
  rewrite (and_then_ok _ _ _ _ _ (get_field_built h _ w j je accounts Hj)).
  fold (check_required_fields je).
  unfold validateJournalEntry.
  destruct (accounts je) as [[ | a rest] | ] eqn:E.
  - rewrite (and_then_ok _ _ _ _ _ (report_built h _ w _)). reflexivity.
  - rewrite (and_then_ok _ _ _ _ _ (get_lines_built h _ w j je _ Hj E)).
    rewrite (and_then_ok _ _ _ _ _ (when_report_built h _ w _ _)).
    fold (check_two_lines (a :: rest) (check_required_fields je)).
    rewrite (and_then_ok _ _ _ _ _ (get_lines_built h _ w j je _ Hj E)).
    rewrite (and_then_ok _ _ _ _ _ (for_each_built h w (a :: rest) _)).
    unfold set_total_debit, set_total_credit, set_difference.
    rewrite (and_then_ok _ _ _ _ _ (update_validation_built h _ w _)).
    rewrite (and_then_ok _ _ _ _ _ (update_validation_built h _ w _)).
    rewrite (and_then_ok _ _ _ _ _ (update_validation_built h _ w _)).
    rewrite (and_then_ok _ _ _ _ _ (get_validation_built h _ w)).
    unfold check_balance.
    set (folded := fold_left validate_line (a :: rest) _).
    change (round_totals folded)
      with {| is_valid := is_valid folded;
              total_debit := round_to_cents (total_debit folded);
              total_credit := round_to_cents (total_credit folded);
              difference :=
                round_to_cents (sub (round_to_cents (total_debit folded))
                                    (round_to_cents (total_credit folded)));
              errors := errors folded;
              warnings := warnings folded |}.
    cbn [difference total_debit total_credit is_valid errors warnings].
    destruct (gt (Math_abs _) tolerance); cbn [when].
    + unfold and_then at 1. unfold and_then at 1.
      rewrite get_validation_built, report_built. reflexivity.
    + reflexivity.
  - rewrite (and_then_ok _ _ _ _ _ (report_built h _ w _)). reflexivity.
Qed.

(** C10: for every draft on the heap, validating it twice in a row returns
    references to two validation objects with identical contents, the
    validation of the draft; both runs leave the draft, and every other
    object that existed before, as it was; neither run issues a request or
    changes the remote ledger, so a call of the client that follows a
    validation does what it does without it. *)
Theorem validation_is_pure (m : Machine) (j : nat) (journalEntry : JournalEntry) :
  nth_error (heap m) j = Some (ObjDraft journalEntry) ->
  exists (first second : nat) (m1 m2 : Machine),
    validateJournalEntry_program j m = (Ok first, m1)
    /\ validateJournalEntry_program j m1 = (Ok second, m2)
    /\ nth_error (heap m1) first
       = Some (ObjValidation (validateJournalEntry journalEntry))
    /\ nth_error (heap m2) second
       = Some (ObjValidation (validateJournalEntry journalEntry))
    /\ nth_error (heap m2) first
       = Some (ObjValidation (validateJournalEntry journalEntry))
    /\ first <> second
    /\ nth_error (heap m1) j = Some (ObjDraft journalEntry)
    /\ nth_error (heap m2) j = Some (ObjDraft journalEntry)
    /\ (forall (l : nat) (o : Object),
           nth_error (heap m) l = Some o ->
           nth_error (heap m1) l = Some o /\ nth_error (heap m2) l = Some o)
    /\ net m1 = net m
    /\ net m2 = net m
    /\ (forall (A : Type) (c : M A),
           fst ((validateJournalEntry_program j >> on_the_net c) m)
           = fst (c (net m))
           /\ net (snd ((validateJournalEntry_program j >> on_the_net c) m))
              = snd (c (net m))).
Proof.
  intros Hj. destruct m as [h w]. cbn [heap net] in *.
  set (v := validateJournalEntry journalEntry).
  assert (nth_error (h ++ [ObjValidation v]) j = Some (ObjDraft journalEntry))
    as Hj1 by (apply nth_error_built_before, Hj).
  exists (List.length h), (List.length (h ++ [ObjValidation v])),
    (built h v w), (built (h ++ [ObjValidation v]) v w).
  split; [apply validateJournalEntry_program_built, Hj | ].
  split; [apply (validateJournalEntry_program_built (h ++ [ObjValidation v])), Hj1 | ].
  unfold built. cbn [heap net].
  split; [apply nth_error_built_last | ].
  split; [apply nth_error_built_last | ].
  split; [apply nth_error_built_before, nth_error_built_last | ].
  split; [rewrite length_app; simpl; lia | ].
  split; [exact Hj1 | ].
  split; [apply nth_error_built_before, Hj1 | ].
  split; [ | split; [reflexivity | split; [reflexivity | ]]].
  - intros l o Hl. split.
    + apply nth_error_built_before, Hl.
    + do 2 apply nth_error_built_before. exact Hl.
  - intros A c.
    rewrite (and_then_ok _ _ _ _ _
               (validateJournalEntry_program_built h w j journalEntry Hj)).
    unfold on_the_net, built. cbn [net heap].
    destruct (c w) as [r w']. split; reflexivity.
Qed.

Lemma includes_join (sep x : string) (xs : list string) :
  In x xs -> includes (join sep xs) x.
Proof.
  unfold join. induction xs as [ | y ys IH]; intros Hin; [contradiction | ].
  destruct ys as [ | z zs].
  - destruct Hin as [-> | []]. exists ""%string, ""%string.
    now rewrite append_empty_r.
  - change (String.concat sep (y :: z :: zs))
      with (y ++ sep ++ String.concat sep (z :: zs))%string.
    destruct Hin as [-> | Hin].
    + exists ""%string, (sep ++ String.concat sep (z :: zs))%string. reflexivity.
    + do 2 apply includes_append_l. apply IH, Hin.
Qed.

Lemma includes_bullet_list (items : list string) (e : string) :
  In e items -> includes (bullet_list items) ("  - " ++ e)%string.
Proof.
  intros Hin. unfold bullet_list. apply includes_join.
  apply (in_map (fun e => "  - " ++ e)%string), Hin.
Qed.

(** The summary opens with the verdict and lists the errors and the
    warnings as bullets. *)
Lemma validation_summary_contents (v : JournalEntryValidation) :
  (exists rest : string,
      validation_summary v
      = ("Journal Entry Validation Result:" ++ newline ++ newline
           ++ "Valid: " ++ (if is_valid v then "Yes" else "No")
           ++ newline ++ rest)%string)
  /\ (forall e : string,
         In e (errors v) -> includes (validation_summary v) ("  - " ++ e)%string)
  /\ (forall e : string,
         In e (warnings v) -> includes (validation_summary v) ("  - " ++ e)%string).
Proof.
  unfold validation_summary.
  set (head := ("Journal Entry Validation Result:" ++ newline ++ newline
                  ++ ("Valid: " ++ (if is_valid v then "Yes" else "No") ++ newline)
                  ++ ("Total Debit: " ++ Number_toFixed2 (total_debit v) ++ newline)
                  ++ ("Total Credit: " ++ Number_toFixed2 (total_credit v) ++ newline)
                  ++ ("Difference: " ++ Number_toFixed2 (difference v)
                        ++ newline ++ newline))%string).
  set (with_errors :=
         match errors v with
         | [] => head
         | _ :: _ =>
             (head ++ "Errors:" ++ newline ++ bullet_list (errors v)
                ++ newline ++ newline)%string
         end).
  assert (exists tail : string,
             head = ("Journal Entry Validation Result:" ++ newline ++ newline
                       ++ "Valid: " ++ (if is_valid v then "Yes" else "No")
                       ++ newline ++ tail)%string) as (tail & Hhead).
  { eexists. unfold head. rewrite !append_assoc. reflexivity. }
  assert (exists more : string, with_errors = (head ++ more)%string)
    as (more & Hmore).
  { unfold with_errors. destruct (errors v).
    - exists ""%string. now rewrite append_empty_r.
    - eexists. reflexivity. }
  split; [ | split].
  - destruct (warnings v).
    + exists (tail ++ more)%string. rewrite Hmore, Hhead, !append_assoc.
      reflexivity.
    + eexists. rewrite Hmore, Hhead, !append_assoc. reflexivity.
  - intros e He.
    assert (includes with_errors ("  - " ++ e)%string) as Hinc.
    { unfold with_errors. destruct (errors v) as [ | e0 es] eqn:Ev;
        [contradiction | ].
      do 3 apply includes_append_l. apply includes_append_r.
      apply includes_bullet_list, He. }
    destruct (warnings v); [exact Hinc | ].
    apply includes_append_r, Hinc.
  - intros e He.
    destruct (warnings v) as [ | w0 ws] eqn:Ew; [contradiction | ].
    do 3 apply includes_append_l. apply includes_append_r.
    apply includes_bullet_list, He.
Qed.

(** X11: given a reference to an entry of the declared type, the
    [validate_journal_entry] tool always answers, issues no request,
    leaves the ledger and the entry as they were; when not authenticated
    its answer is the authentication error and nothing is allocated; when
    authenticated its answer is not an error answer, also for a rejected
    entry: the summary opens with the verdict, Yes exactly when the
    validator accepts the entry, and lists every error and every warning
    of the validation as a bullet. *)
Theorem validate_tool_is_offline (authenticated : bool) (m : Machine) (j : nat)
        (journalEntry : JournalEntry) :
  nth_error (heap m) j = Some (ObjDraft journalEntry) ->
  exists (answer : ToolResult) (m' : Machine),
    validate_journal_entry authenticated (Some j) m = (Ok answer, m')
    /\ net m' = net m
    /\ nth_error (heap m') j = Some (ObjDraft journalEntry)
    /\ (authenticated = false -> answer = not_authenticated /\ m' = m)
    /\ (authenticated = true ->
        isError answer = false
        /\ (exists rest : string,
               text answer
               = ("Journal Entry Validation Result:" ++ newline ++ newline
                    ++ "Valid: " ++ (if accepts journalEntry then "Yes" else "No")
                    ++ newline ++ rest)%string)
        /\ (forall e : string,
               In e (errors (validateJournalEntry journalEntry)) ->
               includes (text answer) ("  - " ++ e)%string)
        /\ (forall e : string,
               In e (warnings (validateJournalEntry journalEntry)) ->
               includes (text answer) ("  - " ++ e)%string)).
Proof.
  intros Hj. destruct m as [h w]. cbn [heap net] in *.
  unfold validate_journal_entry. destruct authenticated; cbn [negb].
  - unfold attempt.
    rewrite (and_then_ok _ _ _ _ _
               (validateJournalEntry_program_built h w j journalEntry Hj)).
    rewrite (and_then_ok _ _ _ _ _ (get_validation_built h _ w)).
    unfold pure. eexists. eexists. split; [reflexivity | ].
    unfold built. cbn [heap net text isError].
    split; [reflexivity | ].
    split; [apply nth_error_built_before, Hj | ].
    split; [discriminate | ].
    intros _. split; [reflexivity | ].
    rewrite <- is_valid_accepts.
    apply validation_summary_contents.
  - unfold pure. eexists. eexists. split; [reflexivity | ].
    cbn [heap net].
    split; [reflexivity | ]. split; [exact Hj | ].
    split; [intros _; split; reflexivity | discriminate].
Qed.

(** X10: when not authenticated, the [submit_journal_entry] tool answers
    with the authentication error and issues no request; when
    authenticated, it throws the protocol error for invalid parameters,
    before any request, if the name is absent or empty, and otherwise
    always answers, issuing exactly one request, the submission of the
    document of that name; a rejection by the ledger becomes an error
    answer that carries the ledger's message. *)
Theorem submit_tool_posts_once (authenticated : bool)
        (journal_entry_name : option string) (w : World Remote) :
  (authenticated = false ->
   submit_journal_entry authenticated journal_entry_name w
   = (Ok not_authenticated, w))
  /\ (authenticated = true ->
      falsy_string journal_entry_name = true ->
      submit_journal_entry authenticated journal_entry_name w
      = (Throw "MCP error -32602: journal_entry_name is required", w))
  /\ (authenticated = true ->
      forall journalEntryName : string,
        journal_entry_name = Some journalEntryName ->
        journalEntryName <> "" ->
        exists answer : ToolResult,
          submit_journal_entry authenticated journal_entry_name w
          = (Ok answer,
             {| remote := snd (remote_post_method "frappe.client.submit"
                                 "Journal Entry" journalEntryName (remote w));
                requests := requests w
                              ++ [POST_method "frappe.client.submit"
                                              "Journal Entry" journalEntryName] |})
          /\ answer
             = match fst (remote_post_method "frappe.client.submit"
                            "Journal Entry" journalEntryName (remote w)) with
               | Ok submitted =>
                   {| text := ("Journal Entry " ++ journalEntryName
                                 ++ " submitted successfully:" ++ newline ++ newline
                                 ++ JSON_stringify submitted)%string;
                      isError := false |}
               | Throw message =>
                   {| text := ("Failed to submit journal entry " ++ journalEntryName
                                 ++ ": Failed to submit journal entry "
                                 ++ journalEntryName
                                 ++ ": Failed to call method frappe.client.submit: "
                                 ++ message_or_unknown message)%string;
                      isError := true |}
               end).
Proof.
  split; [ | split].
  - intros ->. reflexivity.
  - intros -> Hfalsy. unfold submit_journal_entry, given. rewrite Hfalsy.
    reflexivity.
  - intros -> journalEntryName -> Hname.
    unfold submit_journal_entry, given.
    rewrite (falsy_string_some _ Hname). cbn [negb].
    unfold try_catch at 1. unfold bind at 1.
    destruct (remote_post_method "frappe.client.submit" "Journal Entry"
                                 journalEntryName (remote w))
      as [[submitted | message] ledger'] eqn:Hmethod.
    + rewrite (submitJournalEntry_ok _ _ _ _ Hmethod).
      eexists. split; reflexivity.
    + rewrite (submitJournalEntry_fails _ _ _ _ Hmethod).
      eexists. split; [reflexivity | ].
      reflexivity.
Qed.

End Client.

Arguments heap {Remote} m.
Arguments net {Remote} m.

(* ================================================================== *)
(** ** Concrete runs *)
(* ================================================================== *)

(** The entry of 250.00 against 249.50 is unbalanced and reported invalid. *)
Lemma unbalanced_entry_is_invalid_run :
  gt (Math_abs (rounded_difference (lines_of unbalanced_entry))) tolerance = true
  /\ is_valid (validateJournalEntry show_dyadic unbalanced_entry) = false.
Proof.
  assert (gt (Math_abs (rounded_difference (lines_of unbalanced_entry))) tolerance
          = true) as H by (vm_compute; reflexivity).
  split; [exact H | ].
  exact (proj1 (unbalanced_entry_is_invalid show_dyadic unbalanced_entry H)).
Defined.

(** C2, as stated, fails: three lines whose totals balance exactly, one of
    them without any amount, are reported invalid with an error. *)
Lemma balanced_entry_with_empty_line_is_invalid :
  accounts entry_with_empty_line = Some (lines_of entry_with_empty_line)
  /\ (2 <= List.length (lines_of entry_with_empty_line))%nat
  /\ le (Math_abs (rounded_difference (lines_of entry_with_empty_line))) tolerance
     = true
  /\ is_valid (validateJournalEntry show_dyadic entry_with_empty_line) = false
  /\ errors (validateJournalEntry show_dyadic entry_with_empty_line)
     = ["Account 5410 - Groceries - Personal has neither debit nor credit"].
Proof.
  split; [reflexivity | ].
  split; [simpl; lia | ].
  split; [vm_compute; reflexivity | ].
  split; vm_compute; reflexivity.
Qed.

(** The salary entry of the documentation is valid. *)
Lemma salary_entry_is_valid :
  is_valid (validateJournalEntry show_dyadic salary_entry) = true
  /\ errors (validateJournalEntry show_dyadic salary_entry) = [].
Proof.
  apply (balanced_well_formed_entry_is_valid
           show_dyadic salary_entry (lines_of salary_entry)).
  - reflexivity.
  - reflexivity.
  - reflexivity.
  - simpl. lia.
  - vm_compute. reflexivity.
  - vm_compute. reflexivity.
Defined.

(** C4, as stated, fails: a draft without lines and without a posting date
    gets two errors. *)
Lemma undated_empty_entry_has_two_errors :
  accounts undated_empty_entry = Some []
  /\ errors (validateJournalEntry show_dyadic undated_empty_entry)
     = ["posting_date is required"; "At least one account entry is required"]
  /\ List.length (errors (validateJournalEntry show_dyadic undated_empty_entry))
     <> 1%nat.
Proof.
  split; [reflexivity | ].
  split; [vm_compute; reflexivity | ].
  vm_compute. discriminate.
Qed.

Lemma empty_entry_is_invalid_run :
  is_valid (validateJournalEntry show_dyadic undated_empty_entry) = false
  /\ total_debit (validateJournalEntry show_dyadic undated_empty_entry) = zero.
Proof.
  assert (lines_of undated_empty_entry = []) as H by reflexivity.
  pose proof (empty_entry_is_invalid show_dyadic undated_empty_entry H)
    as (Hv & _ & _ & Hd & _).
  split; [exact Hv | exact Hd].
Defined.



(** C6, as stated, fails: for a transaction with a deposit of -5 and a
    withdrawal of 200, the amount of the specification is the withdrawal,
    within the bounds 100 and 1000, yet the search drops the transaction. *)
Lemma negative_deposit_is_dropped :
  spec_retains (Some (of_Z 100)) (Some (of_Z 1000)) reversed_deposit = true
  /\ fst (searchBankTransactions
            MemoryLedger.Ledger MemoryLedger.get
            None None None None None (Some (of_Z 100)) (Some (of_Z 1000))
            (MemoryLedger.start (MemoryLedger.with_transactions [reversed_deposit])))
     = Ok [].
Proof. split; vm_compute; reflexivity. Qed.

Lemma search_documented_example :
  fst (searchBankTransactions
         MemoryLedger.Ledger MemoryLedger.get
         None None None None None (Some (of_Z 100)) (Some (of_Z 1000))
         (MemoryLedger.start
            (MemoryLedger.with_transactions
               [deposit_1500; withdrawal_250; withdrawal_45_50])))
  = Ok [withdrawal_250].
Proof.
  destruct (search_retains_amounts_within_bounds
              MemoryLedger.Ledger MemoryLedger.get
              None None None None None (Some (of_Z 100)) (Some (of_Z 1000))
              (MemoryLedger.start
                 (MemoryLedger.with_transactions
                    [deposit_1500; withdrawal_250; withdrawal_45_50]))
              [deposit_1500; withdrawal_250; withdrawal_45_50]
              (MemoryLedger.with_transactions
                 [deposit_1500; withdrawal_250; withdrawal_45_50]))
    as (result & Hrun & _ & _ & _ & Hexample).
  - reflexivity.
  - left. discriminate.
  - intros m [= <-]. reflexivity.
  - intros m [= <-]. reflexivity.
  - rewrite Hrun, (Hexample eq_refl eq_refl eq_refl). reflexivity.
Defined.

(** The unbalanced entry is refused before anything is sent. *)
Lemma invalid_entry_is_never_sent_run :
  requests (snd (createJournalEntry show_dyadic MemoryLedger.Ledger
                   MemoryLedger.post_resource unbalanced_entry false
                   (MemoryLedger.start MemoryLedger.empty)))
  = []
  /\ remote (snd (createJournalEntry show_dyadic MemoryLedger.Ledger
                    MemoryLedger.post_resource unbalanced_entry false
                    (MemoryLedger.start MemoryLedger.empty)))
     = MemoryLedger.empty.
Proof.
  assert (is_valid (validateJournalEntry show_dyadic unbalanced_entry) = false)
    as H by (vm_compute; reflexivity).
  exact (proj2 (invalid_entry_is_never_sent
                  show_dyadic MemoryLedger.Ledger MemoryLedger.post_resource
                  unbalanced_entry (MemoryLedger.start MemoryLedger.empty) H)).
Defined.

(** On a ledger that rejects submissions, creating the salary entry with
    [submit] answers with an error although the entry is stored. *)
Lemma failed_submit_run :
  exists (answer : ToolResult) (w : World MemoryLedger.Ledger),
    create_journal_entry
      show_dyadic MemoryLedger.stringify MemoryLedger.Ledger
      MemoryLedger.post_resource MemoryLedger.post_method true
      {| arg_journal_entry := Some salary_entry;
         arg_skip_validation := None;
         arg_submit := Some true |}
      (MemoryLedger.start MemoryLedger.rejecting_submit)
    = (Ok answer, w)
    /\ isError answer = true
    /\ MemoryLedger.stored (remote w) = [("JV-0", salary_entry)]
    /\ List.length (requests w) = 2%nat.
Proof.
  eexists. eexists. split.
  - eapply (failed_submit_reports_failed_creation
             show_dyadic MemoryLedger.stringify MemoryLedger.Ledger
             MemoryLedger.post_resource MemoryLedger.post_method
             {| arg_journal_entry := Some salary_entry;
                arg_skip_validation := None;
                arg_submit := Some true |}
             salary_entry
             (MemoryLedger.start MemoryLedger.rejecting_submit)).
    + reflexivity.
    + reflexivity.
    + right. vm_compute. reflexivity.
    + reflexivity.
    + reflexivity.
  - repeat split; reflexivity.
Defined.

Lemma negative_line_is_not_flagged_run :
  validate_line initial_validation
    (line "5200 - Utilities - Personal"
          (Some (cents (-10000))) (Some (cents (-5000))))
  = accumulate initial_validation (cents (-10000)) (cents (-5000)).
Proof.
  apply (negative_line_is_not_flagged
           show_dyadic initial_validation
           (line "5200 - Utilities - Personal"
                 (Some (cents (-10000))) (Some (cents (-5000))))
           "5200 - Utilities - Personal" (cents (-10000)) (cents (-5000))).
  - reflexivity.
  - discriminate.
  - reflexivity.
  - reflexivity.
  - vm_compute. reflexivity.
  - vm_compute. reflexivity.
Defined.

(** Two infinite amounts, one on each side, pass the balance check. *)
Lemma overflowing_entry_is_accepted :
  is_valid (validateJournalEntry show_dyadic overflowing_entry) = true
  /\ difference (validateJournalEntry show_dyadic overflowing_entry) = S754_nan.
Proof.
  destruct (infinite_totals_pass_the_balance_check
              show_dyadic overflowing_entry (lines_of overflowing_entry))
    as (Hv & _ & Hd).
  - reflexivity.
  - reflexivity.
  - reflexivity.
  - simpl. lia.
  - vm_compute. reflexivity.
  - vm_compute. reflexivity.
  - vm_compute. reflexivity.
  - split; [exact Hv | exact Hd].
Defined.

(** The entry generated for a salary of 1500.00 is valid. *)
Lemma generated_salary_entry_is_valid :
  is_valid (validateJournalEntry show_dyadic
              (createJournalEntryForTransaction
                 income (cents 150000) "4100 - Salary Income - Personal"
                 "1111 - Checking - Personal" "2025-02-28" "Personal"
                 "Monthly Salary")) = true.
Proof.
  apply (generated_entry_is_valid
           show_dyadic income (cents 150000) "4100 - Salary Income - Personal"
           "1111 - Checking - Personal" "2025-02-28" "Personal" "Monthly Salary").
  - vm_compute. reflexivity.
  - discriminate.
  - discriminate.
  - discriminate.
  - discriminate.
Defined.

(** The entry generated for an expense of 0 is rejected. *)
Lemma generated_empty_expense_is_invalid :
  is_valid (validateJournalEntry show_dyadic
              (createJournalEntryForTransaction
                 expense zero "5200 - Utilities - Personal"
                 "1111 - Checking - Personal" "2025-02-15" "Personal"
                 "Utility payment")) = false.
Proof.
  apply (generated_entry_without_amount_is_invalid
           show_dyadic expense zero "5200 - Utilities - Personal"
           "1111 - Checking - Personal" "2025-02-15" "Personal" "Utility payment").
  - reflexivity.
  - discriminate.
  - discriminate.
  - discriminate.
  - discriminate.
Defined.

(** The dollar sign of "$1500" is ignored. *)
Lemma dollar_sign_is_ignored :
  categorizeAmount read_integer (AmountString "$1500")
  = categorizeAmount read_integer (AmountString "1500").
Proof.
  apply (currency_noise_is_ignored read_integer "" "1500" "$").
  reflexivity.
Defined.

(** With validation skipped, the unbalanced entry is sent as it is. *)
Lemma skipped_validation_posts_the_draft :
  requests (snd (createJournalEntry show_dyadic MemoryLedger.Ledger
                   MemoryLedger.post_resource unbalanced_entry true
                   (MemoryLedger.start MemoryLedger.empty)))
  = [POST_resource "Journal Entry" unbalanced_entry].
Proof.
  apply (createJournalEntry_posts_once
           show_dyadic MemoryLedger.Ledger MemoryLedger.post_resource
           unbalanced_entry true (MemoryLedger.start MemoryLedger.empty)).
  left. reflexivity.
Defined.

(** Creating the salary entry without [submit] answers in some world. *)
Lemma create_tool_answers :
  exists (answer : ToolResult) (w' : World MemoryLedger.Ledger),
    create_journal_entry
      show_dyadic MemoryLedger.stringify MemoryLedger.Ledger
      MemoryLedger.post_resource MemoryLedger.post_method true
      {| arg_journal_entry := Some salary_entry;
         arg_skip_validation := None;
         arg_submit := None |}
      (MemoryLedger.start MemoryLedger.empty)
    = (Ok answer, w').
Proof.
  destruct (create_tool_request_discipline
              show_dyadic MemoryLedger.stringify MemoryLedger.Ledger
              MemoryLedger.post_resource MemoryLedger.post_method
              {| arg_journal_entry := Some salary_entry;
                 arg_skip_validation := None;
                 arg_submit := None |}
              salary_entry (MemoryLedger.start MemoryLedger.empty) eq_refl)
    as (answer & w' & Hrun & _).
  exists answer, w'. exact Hrun.
Defined.

(** Validating the salary entry twice builds two equal validations and
    leaves the entry and the ledger alone. *)
Lemma validation_is_pure_run :
  exists (first second : nat) (m1 m2 : Machine MemoryLedger.Ledger),
    validateJournalEntry_program
      show_dyadic MemoryLedger.Ledger 0
      {| heap := [ObjDraft salary_entry];
         net := MemoryLedger.start MemoryLedger.empty |}
    = (Ok first, m1)
    /\ validateJournalEntry_program show_dyadic MemoryLedger.Ledger 0 m1
       = (Ok second, m2)
    /\ nth_error (heap m2) first = nth_error (heap m2) second
    /\ nth_error (heap m2) 0 = Some (ObjDraft salary_entry)
    /\ net m2 = MemoryLedger.start MemoryLedger.empty.
Proof.
  destruct (validation_is_pure
              show_dyadic MemoryLedger.Ledger
              {| heap := [ObjDraft salary_entry];
                 net := MemoryLedger.start MemoryLedger.empty |}
              0 salary_entry eq_refl)
    as (first & second & m1 & m2 & H1 & H2 & _ & Hsecond & Hfirst & _ & _
        & Hdraft & _ & _ & Hnet & _).
  exists first, second, m1, m2.
  split; [exact H1 | ]. split; [exact H2 | ].
  split; [now rewrite Hfirst, Hsecond | ].
  split; [exact Hdraft | exact Hnet].
Defined.

(** The validation tool answers for the unbalanced entry without an error
    answer and without touching the ledger. *)
Lemma validate_tool_run :
  exists (answer : ToolResult) (m' : Machine MemoryLedger.Ledger),
    validate_journal_entry
      show_dyadic MemoryLedger.Ledger show_dyadic true (Some 0%nat)
      {| heap := [ObjDraft unbalanced_entry];
         net := MemoryLedger.start MemoryLedger.empty |}
    = (Ok answer, m')
    /\ isError answer = false
    /\ net m' = MemoryLedger.start MemoryLedger.empty.
Proof.
  destruct (validate_tool_is_offline
              show_dyadic MemoryLedger.Ledger show_dyadic true
              {| heap := [ObjDraft unbalanced_entry];
                 net := MemoryLedger.start MemoryLedger.empty |}
              0 unbalanced_entry eq_refl)
    as (answer & m' & Hrun & Hnet & _ & _ & Hauth).
  exists answer, m'.
  split; [exact Hrun | ].
  split; [exact (proj1 (Hauth eq_refl)) | exact Hnet].
Defined.
